(** * Roguelike-Game: the simulation core of [src/game.js] in Rocq

    A shallow embedding of the gameplay classes of [src/game.js]
    ([Utils], [Player], [Enemy], [ExpOrb], [Chest], [Particle], [Game]) and
    the properties of the specification that concern them.

    Modelling conventions.
    - JavaScript numbers are idealised as real numbers ([R]): [Math.sqrt],
      [Math.cos], [Math.sin], [Math.atan2], [Math.floor], [Math.max] and
      [Math.min] are the exact functions, without rounding, NaN or
      infinities.  Counters that only ever hold integers ([level],
      [killCount], [score], [weaponType]) are [Z]; [weaponCount], which
      bounds a [for] loop, is [nat].
    - Rounding decides one property of the specification, the length of the
      grace window of [Player.takeDamage]: the fields that window depends on
      are embedded a second time on binary64 numbers ([Player64]), and the
      property is settled there.
    - [Math.random()] reads the next value of an oracle [nat -> R] kept in
      the game state together with the index of the next unread value.
    - [Enemy] objects are shared between the [enemies] array and the closure
      of the delayed boss attack, so they live in a store (a list indexed by
      object identity) and the array holds references into it.
    - [setTimeout] callbacks with a gameplay effect are kept as a list of
      pending timers; the environment decides when one fires.
    - Rendering, audio and DOM updates have no effect on the simulation
      state and are left out, except the score that [gameOver] writes to
      the game-over panel. *)

From Stdlib Require Import PrimFloat FloatOps SpecFloat QArith.
From Stdlib Require Import Reals Lra Lia ZArith List String Bool.
From stdpp Require Import base gmap sets list strings.
Import ListNotations.
Open Scope R_scope.

(** Decimal constants such as [0.1] denote the nearest binary64 number, as
    they do in JavaScript. *)
Set Warnings "-inexact-float".

(** ** Comparisons as booleans *)

Definition Rltb (a b : R) : bool := if Rlt_dec a b then true else false.
Definition Rleb (a b : R) : bool := if Rle_dec a b then true else false.

(** [Math.atan2(y, x)] on the reals (signed zeros are not distinguished). *)
Definition atan2 (y x : R) : R :=
  if Rltb 0 x then atan (y / x)
  else if Rltb x 0 then
    (if Rleb 0 y then atan (y / x) + PI else atan (y / x) - PI)
  else if Rltb 0 y then PI / 2
  else if Rltb y 0 then - (PI / 2)
  else 0.

(** ** Utils (game.js 64-96) *)

Module Utils.

Definition distance (x1 y1 x2 y2 : R) : R :=
  sqrt ((x2 - x1) ^ 2 + (y2 - y1) ^ 2).

Definition circleCollision (x1 y1 r1 x2 y2 r2 : R) : bool :=
  Rltb (distance x1 y1 x2 y2) (r1 + r2).

Definition clamp (value min max : R) : R := Rmax min (Rmin max value).

(** [u] is the value returned by [Math.random()]. *)
Definition randomInt (u : R) (min max : Z) : Z :=
  (Zfloor (u * IZR (max - min + 1)) + min)%Z.

Definition randomFloat (u : R) (min max : R) : R := u * (max - min) + min.

End Utils.

(** The keys object of the driver: the set of key names currently held
    ([keys[k] = true] on keydown, [delete keys[k]] on keyup). *)
Definition held (keys : gset string) (k : string) : bool :=
  bool_decide (k ∈ keys).

(** ** Player (game.js 160-412) *)

Module Player.

Record t := mk {
  x : R;
  y : R;
  radius : R;
  hp : R;
  maxHp : R;
  speed : R;
  level : Z;
  exp : R;
  expToLevel : R;
  weaponCount : nat;
  weaponDamage : R;
  weaponRadius : R;
  rotateSpeed : R;
  currentAngle : R;
  defenseRate : R;
  vx : R;
  vy : R;
  targetX : option R;
  targetY : option R;
  autoCollectBuff : R;
  speedBuff : R;
  invincible : R;
  weaponType : Z
}.

(** constructor(x, y); the constant colour table [weaponColors] is only
    read by [draw] and is left out. *)
Definition new (x0 y0 : R) : t :=
  {| x := x0; y := y0; radius := 20;
     hp := 100; maxHp := 100; speed := 100; level := 1; exp := 0;
     expToLevel := 100;
     weaponCount := 2; weaponDamage := 10; weaponRadius := 80;
     rotateSpeed := 120; currentAngle := 0;
     defenseRate := 0;
     vx := 0; vy := 0; targetX := None; targetY := None;
     autoCollectBuff := 0; speedBuff := 1;
     invincible := 0;
     weaponType := 0 |}.

(** Field assignments. *)
Definition set_x (v : R) (r : t) : t :=
  mk v (y r) (radius r) (hp r) (maxHp r) (speed r) (level r) (exp r)
    (expToLevel r) (weaponCount r) (weaponDamage r) (weaponRadius r)
    (rotateSpeed r) (currentAngle r) (defenseRate r) (vx r) (vy r)
    (targetX r) (targetY r) (autoCollectBuff r) (speedBuff r) (invincible r)
    (weaponType r).
Definition set_y (v : R) (r : t) : t :=
  mk (x r) v (radius r) (hp r) (maxHp r) (speed r) (level r) (exp r)
    (expToLevel r) (weaponCount r) (weaponDamage r) (weaponRadius r)
    (rotateSpeed r) (currentAngle r) (defenseRate r) (vx r) (vy r)
    (targetX r) (targetY r) (autoCollectBuff r) (speedBuff r) (invincible r)
    (weaponType r).
Definition set_radius (v : R) (r : t) : t :=
  mk (x r) (y r) v (hp r) (maxHp r) (speed r) (level r) (exp r)
    (expToLevel r) (weaponCount r) (weaponDamage r) (weaponRadius r)
    (rotateSpeed r) (currentAngle r) (defenseRate r) (vx r) (vy r)
    (targetX r) (targetY r) (autoCollectBuff r) (speedBuff r) (invincible r)
    (weaponType r).
Definition set_hp (v : R) (r : t) : t :=
  mk (x r) (y r) (radius r) v (maxHp r) (speed r) (level r) (exp r)
    (expToLevel r) (weaponCount r) (weaponDamage r) (weaponRadius r)
    (rotateSpeed r) (currentAngle r) (defenseRate r) (vx r) (vy r)
    (targetX r) (targetY r) (autoCollectBuff r) (speedBuff r) (invincible r)
    (weaponType r).
Definition set_maxHp (v : R) (r : t) : t :=
  mk (x r) (y r) (radius r) (hp r) v (speed r) (level r) (exp r)
    (expToLevel r) (weaponCount r) (weaponDamage r) (weaponRadius r)
    (rotateSpeed r) (currentAngle r) (defenseRate r) (vx r) (vy r)
    (targetX r) (targetY r) (autoCollectBuff r) (speedBuff r) (invincible r)
    (weaponType r).
Definition set_speed (v : R) (r : t) : t :=
  mk (x r) (y r) (radius r) (hp r) (maxHp r) v (level r) (exp r)
    (expToLevel r) (weaponCount r) (weaponDamage r) (weaponRadius r)
    (rotateSpeed r) (currentAngle r) (defenseRate r) (vx r) (vy r)
    (targetX r) (targetY r) (autoCollectBuff r) (speedBuff r) (invincible r)
    (weaponType r).
Definition set_level (v : Z) (r : t) : t :=
  mk (x r) (y r) (radius r) (hp r) (maxHp r) (speed r) v (exp r)
    (expToLevel r) (weaponCount r) (weaponDamage r) (weaponRadius r)
    (rotateSpeed r) (currentAngle r) (defenseRate r) (vx r) (vy r)
    (targetX r) (targetY r) (autoCollectBuff r) (speedBuff r) (invincible r)
    (weaponType r).
Definition set_exp (v : R) (r : t) : t :=
  mk (x r) (y r) (radius r) (hp r) (maxHp r) (speed r) (level r) v
    (expToLevel r) (weaponCount r) (weaponDamage r) (weaponRadius r)
    (rotateSpeed r) (currentAngle r) (defenseRate r) (vx r) (vy r)
    (targetX r) (targetY r) (autoCollectBuff r) (speedBuff r) (invincible r)
    (weaponType r).
Definition set_expToLevel (v : R) (r : t) : t :=
  mk (x r) (y r) (radius r) (hp r) (maxHp r) (speed r) (level r) (exp r) v
    (weaponCount r) (weaponDamage r) (weaponRadius r) (rotateSpeed r)
    (currentAngle r) (defenseRate r) (vx r) (vy r) (targetX r) (targetY r)
    (autoCollectBuff r) (speedBuff r) (invincible r) (weaponType r).
Definition set_weaponCount (v : nat) (r : t) : t :=
  mk (x r) (y r) (radius r) (hp r) (maxHp r) (speed r) (level r) (exp r)
    (expToLevel r) v (weaponDamage r) (weaponRadius r) (rotateSpeed r)
    (currentAngle r) (defenseRate r) (vx r) (vy r) (targetX r) (targetY r)
    (autoCollectBuff r) (speedBuff r) (invincible r) (weaponType r).
Definition set_weaponDamage (v : R) (r : t) : t :=
  mk (x r) (y r) (radius r) (hp r) (maxHp r) (speed r) (level r) (exp r)
    (expToLevel r) (weaponCount r) v (weaponRadius r) (rotateSpeed r)
    (currentAngle r) (defenseRate r) (vx r) (vy r) (targetX r) (targetY r)
    (autoCollectBuff r) (speedBuff r) (invincible r) (weaponType r).
Definition set_weaponRadius (v : R) (r : t) : t :=
  mk (x r) (y r) (radius r) (hp r) (maxHp r) (speed r) (level r) (exp r)
    (expToLevel r) (weaponCount r) (weaponDamage r) v (rotateSpeed r)
    (currentAngle r) (defenseRate r) (vx r) (vy r) (targetX r) (targetY r)
    (autoCollectBuff r) (speedBuff r) (invincible r) (weaponType r).
Definition set_rotateSpeed (v : R) (r : t) : t :=
  mk (x r) (y r) (radius r) (hp r) (maxHp r) (speed r) (level r) (exp r)
    (expToLevel r) (weaponCount r) (weaponDamage r) (weaponRadius r) v
    (currentAngle r) (defenseRate r) (vx r) (vy r) (targetX r) (targetY r)
    (autoCollectBuff r) (speedBuff r) (invincible r) (weaponType r).
Definition set_currentAngle (v : R) (r : t) : t :=
  mk (x r) (y r) (radius r) (hp r) (maxHp r) (speed r) (level r) (exp r)
    (expToLevel r) (weaponCount r) (weaponDamage r) (weaponRadius r)
    (rotateSpeed r) v (defenseRate r) (vx r) (vy r) (targetX r) (targetY r)
    (autoCollectBuff r) (speedBuff r) (invincible r) (weaponType r).
Definition set_defenseRate (v : R) (r : t) : t :=
  mk (x r) (y r) (radius r) (hp r) (maxHp r) (speed r) (level r) (exp r)
    (expToLevel r) (weaponCount r) (weaponDamage r) (weaponRadius r)
    (rotateSpeed r) (currentAngle r) v (vx r) (vy r) (targetX r) (targetY r)
    (autoCollectBuff r) (speedBuff r) (invincible r) (weaponType r).
Definition set_vx (v : R) (r : t) : t :=
  mk (x r) (y r) (radius r) (hp r) (maxHp r) (speed r) (level r) (exp r)
    (expToLevel r) (weaponCount r) (weaponDamage r) (weaponRadius r)
    (rotateSpeed r) (currentAngle r) (defenseRate r) v (vy r) (targetX r)
    (targetY r) (autoCollectBuff r) (speedBuff r) (invincible r)
    (weaponType r).
Definition set_vy (v : R) (r : t) : t :=
  mk (x r) (y r) (radius r) (hp r) (maxHp r) (speed r) (level r) (exp r)
    (expToLevel r) (weaponCount r) (weaponDamage r) (weaponRadius r)
    (rotateSpeed r) (currentAngle r) (defenseRate r) (vx r) v (targetX r)
    (targetY r) (autoCollectBuff r) (speedBuff r) (invincible r)
    (weaponType r).
Definition set_targetX (v : option R) (r : t) : t :=
  mk (x r) (y r) (radius r) (hp r) (maxHp r) (speed r) (level r) (exp r)
    (expToLevel r) (weaponCount r) (weaponDamage r) (weaponRadius r)
    (rotateSpeed r) (currentAngle r) (defenseRate r) (vx r) (vy r) v
    (targetY r) (autoCollectBuff r) (speedBuff r) (invincible r)
    (weaponType r).
Definition set_targetY (v : option R) (r : t) : t :=
  mk (x r) (y r) (radius r) (hp r) (maxHp r) (speed r) (level r) (exp r)
    (expToLevel r) (weaponCount r) (weaponDamage r) (weaponRadius r)
    (rotateSpeed r) (currentAngle r) (defenseRate r) (vx r) (vy r)
    (targetX r) v (autoCollectBuff r) (speedBuff r) (invincible r)
    (weaponType r).
Definition set_autoCollectBuff (v : R) (r : t) : t :=
  mk (x r) (y r) (radius r) (hp r) (maxHp r) (speed r) (level r) (exp r)
    (expToLevel r) (weaponCount r) (weaponDamage r) (weaponRadius r)
    (rotateSpeed r) (currentAngle r) (defenseRate r) (vx r) (vy r)
    (targetX r) (targetY r) v (speedBuff r) (invincible r) (weaponType r).
Definition set_speedBuff (v : R) (r : t) : t :=
  mk (x r) (y r) (radius r) (hp r) (maxHp r) (speed r) (level r) (exp r)
    (expToLevel r) (weaponCount r) (weaponDamage r) (weaponRadius r)
    (rotateSpeed r) (currentAngle r) (defenseRate r) (vx r) (vy r)
    (targetX r) (targetY r) (autoCollectBuff r) v (invincible r)
    (weaponType r).
Definition set_invincible (v : R) (r : t) : t :=
  mk (x r) (y r) (radius r) (hp r) (maxHp r) (speed r) (level r) (exp r)
    (expToLevel r) (weaponCount r) (weaponDamage r) (weaponRadius r)
    (rotateSpeed r) (currentAngle r) (defenseRate r) (vx r) (vy r)
    (targetX r) (targetY r) (autoCollectBuff r) (speedBuff r) v
    (weaponType r).
Definition set_weaponType (v : Z) (r : t) : t :=
  mk (x r) (y r) (radius r) (hp r) (maxHp r) (speed r) (level r) (exp r)
    (expToLevel r) (weaponCount r) (weaponDamage r) (weaponRadius r)
    (rotateSpeed r) (currentAngle r) (defenseRate r) (vx r) (vy r)
    (targetX r) (targetY r) (autoCollectBuff r) (speedBuff r) (invincible r)
    v.

(** update(deltaTime, keys, arenaRadius), game.js 202-266. *)
Definition update (deltaTime : R) (keys : gset string) (arenaRadius : R)
           (p : t) : t :=
  (* keyboard *)
  let vx0 := 0 in
  let vy0 := 0 in
  let vy0 := if held keys "w" || held keys "arrowup" then -1 else vy0 in
  let vy0 := if held keys "s" || held keys "arrowdown" then 1 else vy0 in
  let vx0 := if held keys "a" || held keys "arrowleft" then -1 else vx0 in
  let vx0 := if held keys "d" || held keys "arrowright" then 1 else vx0 in
  (* pointer target *)
  let seek :=
    match targetX p, targetY p with
    | Some tx, Some ty =>
        let dx := tx - x p in
        let dy := ty - y p in
        let dist := sqrt (dx * dx + dy * dy) in
        if Rltb 5 dist then (dx / dist, dy / dist, Some tx, Some ty)
        else (vx0, vy0, None, None)
    | tx, ty => (vx0, vy0, tx, ty)
    end in
  let vx1 := seek.1.1.1 in
  let vy1 := seek.1.1.2 in
  (* normalisation *)
  let mag := sqrt (vx1 * vx1 + vy1 * vy1) in
  let vx2 := if Rltb 0 mag then vx1 / mag else vx1 in
  let vy2 := if Rltb 0 mag then vy1 / mag else vy1 in
  (* integration *)
  let effectiveSpeed := speed p * speedBuff p in
  let x1 := x p + vx2 * effectiveSpeed * deltaTime in
  let y1 := y p + vy2 * effectiveSpeed * deltaTime in
  (* circular boundary *)
  let distFromCenter := sqrt (x1 * x1 + y1 * y1) in
  let out := Rltb arenaRadius (distFromCenter + radius p) in
  let angle := atan2 y1 x1 in
  let maxDist := arenaRadius - radius p in
  let x2 := if out then cos angle * maxDist else x1 in
  let y2 := if out then sin angle * maxDist else y1 in
  (* weapon rotation *)
  let a1 := currentAngle p + rotateSpeed p * deltaTime in
  let a2 := if Rleb 360 a1 then a1 - 360 else a1 in
  (* countdowns *)
  let buff := if Rltb 0 (autoCollectBuff p)
              then autoCollectBuff p - deltaTime else autoCollectBuff p in
  let inv := if Rltb 0 (invincible p)
             then invincible p - deltaTime else invincible p in
  {| x := x2; y := y2; radius := radius p;
     hp := hp p; maxHp := maxHp p; speed := speed p; level := level p;
     exp := exp p; expToLevel := expToLevel p;
     weaponCount := weaponCount p; weaponDamage := weaponDamage p;
     weaponRadius := weaponRadius p;
     rotateSpeed := rotateSpeed p; currentAngle := a2;
     defenseRate := defenseRate p;
     vx := vx2; vy := vy2; targetX := seek.1.2; targetY := seek.2;
     autoCollectBuff := buff; speedBuff := speedBuff p;
     invincible := inv;
     weaponType := weaponType p |}.

(** takeDamage(damage), game.js 268-276. *)
Definition takeDamage (damage : R) (p : t) : t :=
  if Rltb 0 (invincible p) then p
  else
    let actualDamage := Rmax 1 (damage * (1 - defenseRate p)) in
    let p1 := set_invincible (5 / 10) (set_hp (hp p - actualDamage) p) in
    if Rltb (hp p1) 0 then set_hp 0 p1 else p1.

(** gainExp(amount), game.js 278-280. *)
Definition gainExp (amount : R) (p : t) : t := set_exp (exp p + amount) p.

(** checkLevelUp(), game.js 282-289: the returned flag and the player. *)
Definition checkLevelUp (p : t) : bool * t :=
  if Rleb (expToLevel p) (exp p)
  then (true, set_level (level p + 1) (set_exp (exp p - expToLevel p) p))
  else (false, p).

(** heal(amount), game.js 291-293. *)
Definition heal (amount : R) (p : t) : t :=
  set_hp (Rmin (maxHp p) (hp p + amount)) p.

Record WeaponPos := { wx : R; wy : R; wangle : R }.

(** getWeaponPositions(), game.js 295-309. *)
Definition getWeaponPositions (p : t) : list WeaponPos :=
  let angleStep := 360 / INR (weaponCount p) in
  List.map
    (fun i : nat =>
       let angle := (currentAngle p + INR i * angleStep) * PI / 180 in
       {| wx := x p + cos angle * weaponRadius p;
          wy := y p + sin angle * weaponRadius p;
          wangle := angle |})
    (seq 0 (weaponCount p)).

(** getPower(), game.js 409-411. *)
Definition getPower (p : t) : Z :=
  Zfloor (100 + INR (weaponCount p) * 10 + weaponDamage p * (5 / 10)
          + defenseRate p * 800).

End Player.

(** ** Player, the grace window in double precision (game.js 263-276)

    The fields [hp], [defenseRate] and [invincible] of [Player] as the
    binary64 numbers they are in the code, with [takeDamage] and the
    countdown of [update] in the arithmetic of the code: every operation
    rounds to the nearest binary64 number. *)

Module Player64.

Record t := mk {
  hp : float;
  defenseRate : float;
  invincible : float
}.

(** [Math.max(a, b)]. *)
Definition max (a b : float) : float :=
  if is_nan a || is_nan b then nan
  else if (a <? b)%float then b
  else if (b <? a)%float then a
  else if is_zero a && get_sign a then b
  else a.

(** takeDamage(damage), game.js 268-276. *)
Definition takeDamage (damage : float) (p : t) : t :=
  if (0 <? invincible p)%float then p
  else
    let actualDamage := max 1 (damage * (1 - defenseRate p))%float in
    let p1 := mk (hp p - actualDamage)%float (defenseRate p) 0.5%float in
    if (hp p1 <? 0)%float then mk 0%float (defenseRate p1) (invincible p1)
    else p1.

(** update(deltaTime, keys, arenaRadius), game.js 202-266, on these three
    fields: of its statements only the last, 263-265, reads or writes one
    of them. *)
Definition update (deltaTime : float) (p : t) : t :=
  if (0 <? invincible p)%float
  then mk (hp p) (defenseRate p) (invincible p - deltaTime)%float
  else p.

End Player64.

(** ** Enemy (game.js 415-556) *)

Inductive EnemyType := minion | elite | boss.

Definition EnemyType_eqb (a b : EnemyType) : bool :=
  match a, b with
  | minion, minion | elite, elite | boss, boss => true
  | _, _ => false
  end.

Module Enemy.

Record Config := {
  c_hp : R; c_speed : R; c_damage : R; c_exp : R; c_radius : R;
  c_color : string
}.

(** The stat table [configs] of the constructor. *)
Definition configs (type : EnemyType) : Config :=
  match type with
  | minion => {| c_hp := 20; c_speed := 80; c_damage := 5; c_exp := 5;
                 c_radius := 15; c_color := "#ff4444" |}
  | elite => {| c_hp := 80; c_speed := 100; c_damage := 10; c_exp := 20;
                c_radius := 18; c_color := "#ff8800" |}
  | boss => {| c_hp := 300; c_speed := 120; c_damage := 15; c_exp := 100;
               c_radius := 40; c_color := "#aa0000" |}
  end.

(** [attackCooldown] and [attackInterval] exist on boss objects only; every
    read of them in the source is guarded by [type === 'boss'], so the value
    stored here for the other archetypes is never observed. *)
Record t := mk {
  x : R;
  y : R;
  type : EnemyType;
  hp : R;
  maxHp : R;
  speed : R;
  damage : R;
  exp : R;
  radius : R;
  color : string;
  isDead : bool;
  slowEffect : R;
  attackCooldown : R;
  attackInterval : R
}.

(** constructor(x, y, type). *)
Definition new (x0 y0 : R) (ty : EnemyType) : t :=
  let config := configs ty in
  {| x := x0; y := y0; type := ty;
     hp := c_hp config; maxHp := c_hp config; speed := c_speed config;
     damage := c_damage config; exp := c_exp config;
     radius := c_radius config; color := c_color config;
     isDead := false; slowEffect := 0;
     attackCooldown := 0;
     attackInterval := match ty with boss => 5 | _ => 0 end |}.

(** Field assignments. *)
Definition set_x (v : R) (r : t) : t :=
  mk v (y r) (type r) (hp r) (maxHp r) (speed r) (damage r) (exp r)
    (radius r) (color r) (isDead r) (slowEffect r) (attackCooldown r)
    (attackInterval r).
Definition set_y (v : R) (r : t) : t :=
  mk (x r) v (type r) (hp r) (maxHp r) (speed r) (damage r) (exp r)
    (radius r) (color r) (isDead r) (slowEffect r) (attackCooldown r)
    (attackInterval r).
Definition set_type (v : EnemyType) (r : t) : t :=
  mk (x r) (y r) v (hp r) (maxHp r) (speed r) (damage r) (exp r) (radius r)
    (color r) (isDead r) (slowEffect r) (attackCooldown r)
    (attackInterval r).
Definition set_hp (v : R) (r : t) : t :=
  mk (x r) (y r) (type r) v (maxHp r) (speed r) (damage r) (exp r)
    (radius r) (color r) (isDead r) (slowEffect r) (attackCooldown r)
    (attackInterval r).
Definition set_isDead (v : bool) (r : t) : t :=
  mk (x r) (y r) (type r) (hp r) (maxHp r) (speed r) (damage r) (exp r)
    (radius r) (color r) v (slowEffect r) (attackCooldown r)
    (attackInterval r).
Definition set_slowEffect (v : R) (r : t) : t :=
  mk (x r) (y r) (type r) (hp r) (maxHp r) (speed r) (damage r) (exp r)
    (radius r) (color r) (isDead r) v (attackCooldown r) (attackInterval r).
Definition set_attackCooldown (v : R) (r : t) : t :=
  mk (x r) (y r) (type r) (hp r) (maxHp r) (speed r) (damage r) (exp r)
    (radius r) (color r) (isDead r) (slowEffect r) v (attackInterval r).
Definition set_attackInterval (v : R) (r : t) : t :=
  mk (x r) (y r) (type r) (hp r) (maxHp r) (speed r) (damage r) (exp r)
    (radius r) (color r) (isDead r) (slowEffect r) (attackCooldown r) v.

(** The local [speedMult] of [update], from the slow countdown. *)
Definition speedMult (slow : R) : R := if Rltb 0 slow then 7 / 10 else 1.

(** update(deltaTime, playerX, playerY), game.js 446-469. *)
Definition update (deltaTime playerX playerY : R) (e : t) : t :=
  if isDead e then e
  else
    let slow := if Rltb 0 (slowEffect e)
                then slowEffect e - deltaTime else slowEffect e in
    let dx := playerX - x e in
    let dy := playerY - y e in
    let dist := sqrt (dx * dx + dy * dy) in
    let x1 := if Rltb 0 dist
              then x e + (dx / dist) * speed e * speedMult slow * deltaTime
              else x e in
    let y1 := if Rltb 0 dist
              then y e + (dy / dist) * speed e * speedMult slow * deltaTime
              else y e in
    let cd := match type e with
              | boss => attackCooldown e - deltaTime
              | _ => attackCooldown e
              end in
    set_attackCooldown cd (set_slowEffect slow (set_y y1 (set_x x1 e))).

(** takeDamage(damage), game.js 471-477. *)
Definition takeDamage (dmg : R) (e : t) : t :=
  let e1 := set_hp (hp e - dmg) e in
  if Rleb (hp e1) 0 then set_isDead true (set_hp 0 e1) else e1.

(** applySlow(), game.js 479-483. *)
Definition applySlow (e : t) : t :=
  match type e with
  | elite => set_slowEffect 2 e
  | _ => e
  end.

(** canAttack(), game.js 549-551. *)
Definition canAttack (e : t) : bool :=
  EnemyType_eqb (type e) boss && Rleb (attackCooldown e) 0.

(** performAttack(), game.js 553-555. *)
Definition performAttack (e : t) : t :=
  set_attackCooldown (attackInterval e) e.

End Enemy.

(** ** ExpOrb (game.js 559-640) *)

Module ExpOrb.

Record t := mk {
  x : R;
  y : R;
  value : R;
  radius : R;
  collected : bool;
  attractDistance : R;
  attractSpeed : R;
  fastAttractDistance : R;
  fastAttractSpeed : R
}.

(** constructor(x, y, value). *)
Definition new (x0 y0 v : R) : t :=
  {| x := x0; y := y0; value := v; radius := 5; collected := false;
     attractDistance := 100; attractSpeed := 50;
     fastAttractDistance := 300; fastAttractSpeed := 200 |}.

Definition set_collected (v : bool) (o : t) : t :=
  mk (x o) (y o) (value o) (radius o) v (attractDistance o)
    (attractSpeed o) (fastAttractDistance o) (fastAttractSpeed o).

Definition set_pos (x1 y1 : R) (o : t) : t :=
  mk x1 y1 (value o) (radius o) (collected o) (attractDistance o)
    (attractSpeed o) (fastAttractDistance o) (fastAttractSpeed o).

(** update(deltaTime, player, forceAttract), game.js 572-605.  The result
    is the returned value ([None] for the bare [return] of a collected
    orb) and the orb. *)
Definition update (deltaTime : R) (player : Player.t) (forceAttract : bool)
           (o : t) : option R * t :=
  if collected o then (None, o)
  else
    let dx := Player.x player - x o in
    let dy := Player.y player - y o in
    let dist := sqrt (dx * dx + dy * dy) in
    let shouldAttract := false in
    let speed := attractSpeed o in
    let near := Rltb 0 (Player.autoCollectBuff player)
                || Rltb dist (attractDistance o) in
    let shouldAttract := if near then true else shouldAttract in
    let speed := if near then attractSpeed o else speed in
    let forced := forceAttract && Rltb dist (fastAttractDistance o) in
    let shouldAttract := if forced then true else shouldAttract in
    let speed := if forced then fastAttractSpeed o else speed in
    let moving := shouldAttract && Rltb 1 dist in
    let x1 := if moving then x o + (dx / dist) * speed * deltaTime
              else x o in
    let y1 := if moving then y o + (dy / dist) * speed * deltaTime
              else y o in
    let o1 := set_pos x1 y1 o in
    if Utils.circleCollision (x o1) (y o1) (radius o1)
         (Player.x player) (Player.y player) (Player.radius player)
    then (Some (value o1), set_collected true o1)
    else (Some 0, o1).

End ExpOrb.

(** ** Chest (game.js 643-718) *)

Inductive RewardId :=
  weapon_supply | sharp_upgrade | auto_collect | speed_burst | weapon_swap.

Module Chest.

Record t := mk {
  x : R;
  y : R;
  radius : R;
  isOpen : bool;
  collected : bool;
  glowPhase : R
}.

(** constructor(x, y). *)
Definition new (x0 y0 : R) : t :=
  {| x := x0; y := y0; radius := 25; isOpen := false; collected := false;
     glowPhase := 0 |}.

(** The reward catalog of [getRandomReward]. *)
Definition rewards : list RewardId :=
  [weapon_supply; sharp_upgrade; auto_collect; speed_burst; weapon_swap].

(** getRandomReward(), game.js 667-677; [u] is the value of
    [Math.random()].  An index outside the array reads [undefined]. *)
Definition getRandomReward (u : R) : option RewardId :=
  let i := Utils.randomInt u 0 (Z.of_nat (length rewards) - 1) in
  if (i <? 0)%Z then None else nth_error rewards (Z.to_nat i).

(** update(deltaTime, player), game.js 653-665; [u] is what
    [Math.random()] returns if the chest opens. *)
Definition update (deltaTime : R) (player : Player.t) (u : R) (c : t)
  : option RewardId * t :=
  if collected c then (None, c)
  else
    let c1 := mk (x c) (y c) (radius c) (isOpen c) (collected c)
                (glowPhase c + deltaTime * 3) in
    if negb (isOpen c1)
       && Utils.circleCollision (x c1) (y c1) (radius c1)
            (Player.x player) (Player.y player) (Player.radius player)
    then (getRandomReward u,
          mk (x c1) (y c1) (radius c1) true true (glowPhase c1))
    else (None, c1).

End Chest.

(** ** Particle (game.js 721-752) *)

Module Particle.

Record t := mk {
  x : R;
  y : R;
  color : string;
  size : R;
  vx : R;
  vy : R;
  life : R;
  maxLife : R
}.

(** constructor(x, y, color, size, vx, vy, life). *)
Definition new (x0 y0 : R) (c : string) (sz vx0 vy0 l : R) : t :=
  {| x := x0; y := y0; color := c; size := sz; vx := vx0; vy := vy0;
     life := l; maxLife := l |}.

(** update(deltaTime), game.js 733-737. *)
Definition update (deltaTime : R) (p : t) : t :=
  mk (x p + vx p * deltaTime) (y p + vy p * deltaTime) (color p) (size p)
    (vx p) (vy p) (life p - deltaTime) (maxLife p).

(** isDead(), game.js 749-751. *)
Definition isDead (p : t) : bool := Rleb (life p) 0.

End Particle.

(** ** Game (game.js 755-1330) *)

Inductive GameState := playing | paused | levelup | gameover | victory.

Definition GameState_eqb (a b : GameState) : bool :=
  match a, b with
  | playing, playing | paused, paused | levelup, levelup
  | gameover, gameover | victory, victory => true
  | _, _ => false
  end.

(** The skill catalog of [getRandomSkills]. *)
Inductive SkillId :=
  add_weapon | damage_boost | radius_expand | rotate_faster | hp_boost
| speed_boost | defense_up | emergency_heal | exp_magnet.

(** Pending [setTimeout] callbacks that touch the simulation state. *)
Inductive Timer :=
| BossAttackHit (enemy : nat)  (* update, 500 ms; [enemy] is the captured object *)
| SpeedBuffRevert.             (* applyChestReward, 10000 ms *)

Module Game.

(** [store] holds every [Enemy] object ever created and [enemies] the
    references of the array [this.enemies]; [timers] are the pending
    callbacks; [finalScore] is the score written to the game-over panel;
    [rnd] and [rndi] are the oracle of [Math.random()]. *)
Record t := mk {
  centerX : R;
  centerY : R;
  arenaRadius : R;
  keys : gset string;
  mousePressed : bool;
  state : GameState;
  isPaused : bool;
  player : Player.t;
  enemies : list nat;
  expOrbs : list ExpOrb.t;
  chests : list Chest.t;
  particles : list Particle.t;
  score : Z;
  killCount : Z;
  survivalTime : R;
  enemySpawnTimer : R;
  eliteSpawnTimer : R;
  chestSpawnTimer : R;
  bossSpawned : bool;
  bossAlive : bool;
  store : list Enemy.t;
  timers : list Timer;
  finalScore : option Z;
  rnd : nat -> R;
  rndi : nat
}.

(** Field assignments. *)
Definition set_keys (v : gset string) (r : t) : t :=
  mk (centerX r) (centerY r) (arenaRadius r) v (mousePressed r) (state r)
    (isPaused r) (player r) (enemies r) (expOrbs r) (chests r) (particles r)
    (score r) (killCount r) (survivalTime r) (enemySpawnTimer r)
    (eliteSpawnTimer r) (chestSpawnTimer r) (bossSpawned r) (bossAlive r)
    (store r) (timers r) (finalScore r) (rnd r) (rndi r).
Definition set_mousePressed (v : bool) (r : t) : t :=
  mk (centerX r) (centerY r) (arenaRadius r) (keys r) v (state r)
    (isPaused r) (player r) (enemies r) (expOrbs r) (chests r) (particles r)
    (score r) (killCount r) (survivalTime r) (enemySpawnTimer r)
    (eliteSpawnTimer r) (chestSpawnTimer r) (bossSpawned r) (bossAlive r)
    (store r) (timers r) (finalScore r) (rnd r) (rndi r).
Definition set_state (v : GameState) (r : t) : t :=
  mk (centerX r) (centerY r) (arenaRadius r) (keys r) (mousePressed r) v
    (isPaused r) (player r) (enemies r) (expOrbs r) (chests r) (particles r)
    (score r) (killCount r) (survivalTime r) (enemySpawnTimer r)
    (eliteSpawnTimer r) (chestSpawnTimer r) (bossSpawned r) (bossAlive r)
    (store r) (timers r) (finalScore r) (rnd r) (rndi r).
Definition set_isPaused (v : bool) (r : t) : t :=
  mk (centerX r) (centerY r) (arenaRadius r) (keys r) (mousePressed r)
    (state r) v (player r) (enemies r) (expOrbs r) (chests r) (particles r)
    (score r) (killCount r) (survivalTime r) (enemySpawnTimer r)
    (eliteSpawnTimer r) (chestSpawnTimer r) (bossSpawned r) (bossAlive r)
    (store r) (timers r) (finalScore r) (rnd r) (rndi r).
Definition set_player (v : Player.t) (r : t) : t :=
  mk (centerX r) (centerY r) (arenaRadius r) (keys r) (mousePressed r)
    (state r) (isPaused r) v (enemies r) (expOrbs r) (chests r)
    (particles r) (score r) (killCount r) (survivalTime r)
    (enemySpawnTimer r) (eliteSpawnTimer r) (chestSpawnTimer r)
    (bossSpawned r) (bossAlive r) (store r) (timers r) (finalScore r)
    (rnd r) (rndi r).
Definition set_enemies (v : list nat) (r : t) : t :=
  mk (centerX r) (centerY r) (arenaRadius r) (keys r) (mousePressed r)
    (state r) (isPaused r) (player r) v (expOrbs r) (chests r) (particles r)
    (score r) (killCount r) (survivalTime r) (enemySpawnTimer r)
    (eliteSpawnTimer r) (chestSpawnTimer r) (bossSpawned r) (bossAlive r)
    (store r) (timers r) (finalScore r) (rnd r) (rndi r).
Definition set_expOrbs (v : list ExpOrb.t) (r : t) : t :=
  mk (centerX r) (centerY r) (arenaRadius r) (keys r) (mousePressed r)
    (state r) (isPaused r) (player r) (enemies r) v (chests r) (particles r)
    (score r) (killCount r) (survivalTime r) (enemySpawnTimer r)
    (eliteSpawnTimer r) (chestSpawnTimer r) (bossSpawned r) (bossAlive r)
    (store r) (timers r) (finalScore r) (rnd r) (rndi r).
Definition set_chests (v : list Chest.t) (r : t) : t :=
  mk (centerX r) (centerY r) (arenaRadius r) (keys r) (mousePressed r)
    (state r) (isPaused r) (player r) (enemies r) (expOrbs r) v
    (particles r) (score r) (killCount r) (survivalTime r)
    (enemySpawnTimer r) (eliteSpawnTimer r) (chestSpawnTimer r)
    (bossSpawned r) (bossAlive r) (store r) (timers r) (finalScore r)
    (rnd r) (rndi r).
Definition set_particles (v : list Particle.t) (r : t) : t :=
  mk (centerX r) (centerY r) (arenaRadius r) (keys r) (mousePressed r)
    (state r) (isPaused r) (player r) (enemies r) (expOrbs r) (chests r) v
    (score r) (killCount r) (survivalTime r) (enemySpawnTimer r)
    (eliteSpawnTimer r) (chestSpawnTimer r) (bossSpawned r) (bossAlive r)
    (store r) (timers r) (finalScore r) (rnd r) (rndi r).
Definition set_score (v : Z) (r : t) : t :=
  mk (centerX r) (centerY r) (arenaRadius r) (keys r) (mousePressed r)
    (state r) (isPaused r) (player r) (enemies r) (expOrbs r) (chests r)
    (particles r) v (killCount r) (survivalTime r) (enemySpawnTimer r)
    (eliteSpawnTimer r) (chestSpawnTimer r) (bossSpawned r) (bossAlive r)
    (store r) (timers r) (finalScore r) (rnd r) (rndi r).
Definition set_killCount (v : Z) (r : t) : t :=
  mk (centerX r) (centerY r) (arenaRadius r) (keys r) (mousePressed r)
    (state r) (isPaused r) (player r) (enemies r) (expOrbs r) (chests r)
    (particles r) (score r) v (survivalTime r) (enemySpawnTimer r)
    (eliteSpawnTimer r) (chestSpawnTimer r) (bossSpawned r) (bossAlive r)
    (store r) (timers r) (finalScore r) (rnd r) (rndi r).
Definition set_survivalTime (v : R) (r : t) : t :=
  mk (centerX r) (centerY r) (arenaRadius r) (keys r) (mousePressed r)
    (state r) (isPaused r) (player r) (enemies r) (expOrbs r) (chests r)
    (particles r) (score r) (killCount r) v (enemySpawnTimer r)
    (eliteSpawnTimer r) (chestSpawnTimer r) (bossSpawned r) (bossAlive r)
    (store r) (timers r) (finalScore r) (rnd r) (rndi r).
Definition set_enemySpawnTimer (v : R) (r : t) : t :=
  mk (centerX r) (centerY r) (arenaRadius r) (keys r) (mousePressed r)
    (state r) (isPaused r) (player r) (enemies r) (expOrbs r) (chests r)
    (particles r) (score r) (killCount r) (survivalTime r) v
    (eliteSpawnTimer r) (chestSpawnTimer r) (bossSpawned r) (bossAlive r)
    (store r) (timers r) (finalScore r) (rnd r) (rndi r).
Definition set_eliteSpawnTimer (v : R) (r : t) : t :=
  mk (centerX r) (centerY r) (arenaRadius r) (keys r) (mousePressed r)
    (state r) (isPaused r) (player r) (enemies r) (expOrbs r) (chests r)
    (particles r) (score r) (killCount r) (survivalTime r)
    (enemySpawnTimer r) v (chestSpawnTimer r) (bossSpawned r) (bossAlive r)
    (store r) (timers r) (finalScore r) (rnd r) (rndi r).
Definition set_chestSpawnTimer (v : R) (r : t) : t :=
  mk (centerX r) (centerY r) (arenaRadius r) (keys r) (mousePressed r)
    (state r) (isPaused r) (player r) (enemies r) (expOrbs r) (chests r)
    (particles r) (score r) (killCount r) (survivalTime r)
    (enemySpawnTimer r) (eliteSpawnTimer r) v (bossSpawned r) (bossAlive r)
    (store r) (timers r) (finalScore r) (rnd r) (rndi r).
Definition set_bossSpawned (v : bool) (r : t) : t :=
  mk (centerX r) (centerY r) (arenaRadius r) (keys r) (mousePressed r)
    (state r) (isPaused r) (player r) (enemies r) (expOrbs r) (chests r)
    (particles r) (score r) (killCount r) (survivalTime r)
    (enemySpawnTimer r) (eliteSpawnTimer r) (chestSpawnTimer r) v
    (bossAlive r) (store r) (timers r) (finalScore r) (rnd r) (rndi r).
Definition set_bossAlive (v : bool) (r : t) : t :=
  mk (centerX r) (centerY r) (arenaRadius r) (keys r) (mousePressed r)
    (state r) (isPaused r) (player r) (enemies r) (expOrbs r) (chests r)
    (particles r) (score r) (killCount r) (survivalTime r)
    (enemySpawnTimer r) (eliteSpawnTimer r) (chestSpawnTimer r)
    (bossSpawned r) v (store r) (timers r) (finalScore r) (rnd r) (rndi r).
Definition set_store (v : list Enemy.t) (r : t) : t :=
  mk (centerX r) (centerY r) (arenaRadius r) (keys r) (mousePressed r)
    (state r) (isPaused r) (player r) (enemies r) (expOrbs r) (chests r)
    (particles r) (score r) (killCount r) (survivalTime r)
    (enemySpawnTimer r) (eliteSpawnTimer r) (chestSpawnTimer r)
    (bossSpawned r) (bossAlive r) v (timers r) (finalScore r) (rnd r)
    (rndi r).
Definition set_timers (v : list Timer) (r : t) : t :=
  mk (centerX r) (centerY r) (arenaRadius r) (keys r) (mousePressed r)
    (state r) (isPaused r) (player r) (enemies r) (expOrbs r) (chests r)
    (particles r) (score r) (killCount r) (survivalTime r)
    (enemySpawnTimer r) (eliteSpawnTimer r) (chestSpawnTimer r)
    (bossSpawned r) (bossAlive r) (store r) v (finalScore r) (rnd r)
    (rndi r).
Definition set_finalScore (v : option Z) (r : t) : t :=
  mk (centerX r) (centerY r) (arenaRadius r) (keys r) (mousePressed r)
    (state r) (isPaused r) (player r) (enemies r) (expOrbs r) (chests r)
    (particles r) (score r) (killCount r) (survivalTime r)
    (enemySpawnTimer r) (eliteSpawnTimer r) (chestSpawnTimer r)
    (bossSpawned r) (bossAlive r) (store r) (timers r) v (rnd r) (rndi r).
Definition set_rndi (v : nat) (r : t) : t :=
  mk (centerX r) (centerY r) (arenaRadius r) (keys r) (mousePressed r)
    (state r) (isPaused r) (player r) (enemies r) (expOrbs r) (chests r)
    (particles r) (score r) (killCount r) (survivalTime r)
    (enemySpawnTimer r) (eliteSpawnTimer r) (chestSpawnTimer r)
    (bossSpawned r) (bossAlive r) (store r) (timers r) (finalScore r)
    (rnd r) v.

(** The constructor, up to its call of [init]: canvas 1200 x 800. *)
Definition construct (oracle : nat -> R) : t :=
  {| centerX := 1200 / 2; centerY := 800 / 2; arenaRadius := 500;
     keys := ∅; mousePressed := false;
     state := playing; isPaused := false;
     player := Player.new 0 0;  (* unset until [init] *)
     enemies := []; expOrbs := []; chests := []; particles := [];
     score := 0; killCount := 0; survivalTime := 0;
     enemySpawnTimer := 0; eliteSpawnTimer := 0; chestSpawnTimer := 0;
     bossSpawned := false; bossAlive := false;
     store := []; timers := []; finalScore := None;
     rnd := oracle; rndi := 0 |}.

(** init(), game.js 776-799.  The call of [gameLoop] that ends it is the
    first [Frame] event of the environment. *)
Definition init (g : t) : t :=
  let g := set_state playing g in
  let g := set_isPaused false g in
  let g := set_player (Player.new (centerX g) (centerY g)) g in
  let g := set_enemies [] g in
  let g := set_expOrbs [] g in
  let g := set_chests [] g in
  let g := set_particles [] g in
  let g := set_score 0 g in
  let g := set_killCount 0 g in
  let g := set_survivalTime 0 g in
  let g := set_enemySpawnTimer 0 g in
  let g := set_eliteSpawnTimer 0 g in
  let g := set_chestSpawnTimer 0 g in
  let g := set_bossSpawned false g in
  set_bossAlive false g.

(** new Game(). *)
Definition new (oracle : nat -> R) : t := init (construct oracle).

(** Math.random(). *)
Definition random (g : t) : R * t := (rnd g (rndi g), set_rndi (S (rndi g)) g).

Definition randomFloat (min max : R) (g : t) : R * t :=
  let (u, g) := random g in (Utils.randomFloat u min max, g).

Definition randomInt (min max : Z) (g : t) : Z * t :=
  let (u, g) := random g in (Utils.randomInt u min max, g).

(** [this.enemies.push(new Enemy(x, y, type))]. *)
Definition pushEnemy (e : Enemy.t) (g : t) : t :=
  set_enemies (enemies g ++ [length (store g)])
    (set_store (store g ++ [e]) g).

(** A write through the reference [id]. *)
Definition putEnemy (id : nat) (e : Enemy.t) (g : t) : t :=
  set_store (<[id := e]> (store g)) g.

(** handleMouseMove(e), game.js 846-853, at canvas coordinates [(x, y)]. *)
Definition handleMouseMove (x y : R) (g : t) : t :=
  set_player (Player.set_targetY (Some y)
                (Player.set_targetX (Some x) (player g))) g.

(** gameOver(victory), game.js 1220-1246. *)
Definition gameOver (victory : bool) (g : t) : t :=
  set_finalScore (Some (score g)) (set_state gameover g).

(** showSkillSelection(), game.js 1114-1149.  Which three skills are on
    offer is decided by a sort with a random comparator; the choice made
    (by click or by the countdown) arrives as an event of the environment. *)
Definition showSkillSelection (g : t) : t := set_state levelup g.

(** Body of the orb loop of [killEnemy]. *)
Definition dropOrb (e : Enemy.t) (g : t) : t :=
  let (offsetX, g) := randomFloat (-20) 20 g in
  let (offsetY, g) := randomFloat (-20) 20 g in
  set_expOrbs
    (expOrbs g ++
       [ExpOrb.new (Enemy.x e + offsetX) (Enemy.y e + offsetY)
          (Enemy.exp e / 3)]) g.

(** Body of the particle loop of [killEnemy]. *)
Definition burstParticle (e : Enemy.t) (g : t) : t :=
  let (angle, g) := randomFloat 0 (PI * 2) g in
  let (speed, g) := randomFloat 50 150 g in
  let (size, g) := randomFloat 2 5 g in
  let (life, g) := randomFloat (3 / 10) (8 / 10) g in
  set_particles
    (particles g ++
       [Particle.new (Enemy.x e) (Enemy.y e) (Enemy.color e) size
          (cos angle * speed) (sin angle * speed) life]) g.

(** killEnemy(enemy), game.js 1034-1064. *)
Definition killEnemy (e : Enemy.t) (g : t) : t :=
  let g := set_killCount (killCount g + 1) g in
  let g := Nat.iter 3 (dropOrb e) g in
  let g := Nat.iter 10 (burstParticle e) g in
  match Enemy.type e with
  | boss =>
      let g := set_bossAlive false g in
      let g := set_score (score g + 50) g in
      gameOver true g
  | _ => g
  end.

(** createBossAttackWarning(x, y), game.js 1066-1082. *)
Definition createBossAttackWarning (x y : R) (g : t) : t :=
  set_particles
    (particles g ++
       List.map
         (fun i : nat =>
            let angle := (INR i / 30) * PI * 2 in
            let radius := 200 in
            Particle.new (x + cos angle * radius) (y + sin angle * radius)
              "#ff0000" 4 0 0 (5 / 10))
         (seq 0 30)) g.

(** applyChestReward(reward), game.js 1084-1107. *)
Definition applyChestReward (reward : RewardId) (g : t) : t :=
  let p := player g in
  match reward with
  | weapon_supply =>
      set_player
        (Player.set_weaponCount (Nat.min 8 (Player.weaponCount p + 4)) p) g
  | sharp_upgrade =>
      set_player (Player.set_weaponDamage (Player.weaponDamage p + 10) p) g
  | auto_collect => set_player (Player.set_autoCollectBuff 30 p) g
  | speed_burst =>
      set_timers (timers g ++ [SpeedBuffRevert])
        (set_player (Player.set_speedBuff (15 / 10) p) g)
  | weapon_swap =>
      let (w, g) := randomInt 0 4 g in
      set_player (Player.set_weaponType w (player g)) g
  end.

(** applySkill(skill), game.js 1177-1209. *)
Definition applySkill (skill : SkillId) (g : t) : t :=
  let p := player g in
  match skill with
  | add_weapon =>
      set_player
        (Player.set_weaponCount (Nat.min 8 (Player.weaponCount p + 1)) p) g
  | damage_boost =>
      set_player
        (Player.set_weaponDamage (Player.weaponDamage p * (11 / 10)) p) g
  | radius_expand =>
      set_player
        (Player.set_weaponRadius (Rmin 150 (Player.weaponRadius p + 10)) p) g
  | rotate_faster =>
      set_player
        (Player.set_rotateSpeed (Player.rotateSpeed p * (125 / 100)) p) g
  | hp_boost =>
      set_player
        (Player.set_hp (Player.hp p + 20)
           (Player.set_maxHp (Player.maxHp p + 20) p)) g
  | speed_boost =>
      set_player
        (Player.set_speed (Rmin 200 (Player.speed p * (105 / 100))) p) g
  | defense_up =>
      set_player
        (Player.set_defenseRate
           (Rmin (5 / 10) (Player.defenseRate p + 1 / 10)) p) g
  | emergency_heal => set_player (Player.heal 40 p) g
  | exp_magnet =>
      let g := set_expOrbs
                 (List.map (ExpOrb.set_collected true) (expOrbs g)) g in
      set_player
        (Player.gainExp
           (fold_left (fun sum orb => sum + ExpOrb.value orb) (expOrbs g) 0)
           (player g)) g
  end.

(** selectSkill(skill), game.js 1168-1175. *)
Definition selectSkill (skill : SkillId) (g : t) : t :=
  set_state playing (applySkill skill g).

(** spawnEnemy(type), game.js 994-1000. *)
Definition spawnEnemy (ty : EnemyType) (g : t) : t :=
  let (angle, g) := randomFloat 0 (PI * 2) g in
  let x := centerX g + cos angle * arenaRadius g in
  let y := centerY g + sin angle * arenaRadius g in
  pushEnemy (Enemy.new x y ty) g.

(** The [while (attempts < 10)] loop of spawnChest(), game.js 1002-1018;
    [left] is [10 - attempts]. *)
Fixpoint spawnChestLoop (left : nat) (g : t) : t :=
  match left with
  | O => g
  | S left' =>
      let (angle, g) := randomFloat 0 (PI * 2) g in
      let (dist, g) := randomFloat 0 (arenaRadius g - 100) g in
      let x := centerX g + cos angle * dist in
      let y := centerY g + sin angle * dist in
      let tooClose :=
        Rltb (Utils.distance x y (Player.x (player g)) (Player.y (player g)))
          80 in
      if negb tooClose then set_chests (chests g ++ [Chest.new x y]) g
      else spawnChestLoop left' g
  end.

Definition spawnChest (g : t) : t := spawnChestLoop 10 g.

(** spawnBoss(), game.js 1020-1032. *)
Definition spawnBoss (g : t) : t :=
  let g := set_bossSpawned true g in
  let g := set_bossAlive true g in
  let (angle, g) := randomFloat 0 (PI * 2) g in
  let x := centerX g + cos angle * arenaRadius g in
  let y := centerY g + sin angle * arenaRadius g in
  pushEnemy (Enemy.new x y boss) g.

(** spawnEnemies(deltaTime), game.js 973-992. *)
Definition spawnEnemies (deltaTime : R) (g : t) : t :=
  let g := set_enemySpawnTimer (enemySpawnTimer g + deltaTime) g in
  let g :=
    if Rleb 10 (enemySpawnTimer g) then
      let count := Z.min (3 + Zfloor (survivalTime g / 60)) 8 in
      let g := Nat.iter (Z.to_nat count) (spawnEnemy minion) g in
      set_enemySpawnTimer 0 g
    else g in
  if Rleb 30 (survivalTime g) then
    let g := set_eliteSpawnTimer (eliteSpawnTimer g + deltaTime) g in
    if Rleb 30 (eliteSpawnTimer g) then
      set_eliteSpawnTimer 0 (spawnEnemy elite g)
    else g
  else g.

(** Callback of [weaponPositions.forEach], game.js 897-906, for the enemy
    object [id]. *)
Definition weaponStep (id : nat) (g : t) (wp : Player.WeaponPos) : t :=
  match store g !! id with
  | None => g
  | Some e =>
      if Utils.circleCollision (Player.wx wp) (Player.wy wp) 8
           (Enemy.x e) (Enemy.y e) (Enemy.radius e)
      then
        let e := Enemy.takeDamage (Player.weaponDamage (player g)) e in
        let g := putEnemy id e g in
        if Enemy.isDead e then killEnemy e g else g
      else g
  end.

(** Callback of [this.enemies.forEach], game.js 884-920. *)
Definition enemyStep (deltaTime : R) (g : t) (id : nat) : t :=
  match store g !! id with
  | None => g
  | Some e =>
      let e := Enemy.update deltaTime (Player.x (player g))
                 (Player.y (player g)) e in
      let g := putEnemy id e g in
      let g :=
        if Utils.circleCollision (Enemy.x e) (Enemy.y e) (Enemy.radius e)
             (Player.x (player g)) (Player.y (player g))
             (Player.radius (player g))
        then set_player (Player.takeDamage (Enemy.damage e) (player g)) g
        else g in
      let weaponPositions := Player.getWeaponPositions (player g) in
      let g := fold_left (weaponStep id) weaponPositions g in
      match store g !! id with
      | None => g
      | Some e =>
          if Enemy.canAttack e then
            let g := putEnemy id (Enemy.performAttack e) g in
            let g := createBossAttackWarning (Enemy.x e) (Enemy.y e) g in
            set_timers (timers g ++ [BossAttackHit id]) g
          else g
      end
  end.

(** [!e.isDead] through a reference of the array. *)
Definition alive (g : t) (id : nat) : bool :=
  match store g !! id with
  | Some e => negb (Enemy.isDead e)
  | None => false
  end.

(** The callback of [this.expOrbs.forEach], game.js 926-932, over the
    array: the updated orbs and the player. *)
Fixpoint orbLoop (deltaTime : R) (forceAttract : bool)
         (orbs : list ExpOrb.t) (p : Player.t) : list ExpOrb.t * Player.t :=
  match orbs with
  | [] => ([], p)
  | orb :: rest =>
      let (gained, orb) := ExpOrb.update deltaTime p forceAttract orb in
      let p := match gained with
               | Some v => if Rltb 0 v then Player.gainExp v p else p
               | None => p
               end in
      let (rest, p) := orbLoop deltaTime forceAttract rest p in
      (orb :: rest, p)
  end.

(** The callback of [this.chests.forEach], game.js 936-942, over the array:
    the updated chests and the game. *)
Fixpoint chestLoop (deltaTime : R) (cs : list Chest.t) (g : t)
  : list Chest.t * t :=
  match cs with
  | [] => ([], g)
  | chest :: rest =>
      let (reward, chest1) :=
        Chest.update deltaTime (player g) (rnd g (rndi g)) chest in
      let g := if negb (Chest.collected chest) && Chest.collected chest1
               then snd (random g) else g in
      let g := match reward with
               | Some r => applyChestReward r g
               | None => g
               end in
      let (rest, g) := chestLoop deltaTime rest g in
      (chest1 :: rest, g)
  end.

(** update(deltaTime) is the sequence of the blocks below, in the order of
    the source. *)

(** game.js 873-881: the player and the level-up check. *)
Definition updatePlayer (deltaTime : R) (g : t) : t :=
  let g := set_player
             (Player.update deltaTime (keys g) (arenaRadius g) (player g)) g in
  let (levelled, p) := Player.checkLevelUp (player g) in
  let g := set_player p g in
  if levelled then showSkillSelection g else g.

(** game.js 883-923: the enemies, then the removal of the dead ones. *)
Definition updateEnemies (deltaTime : R) (g : t) : t :=
  let g := fold_left (enemyStep deltaTime) (enemies g) g in
  set_enemies (List.filter (alive g) (enemies g)) g.

(** game.js 925-933: the experience orbs. *)
Definition updateExpOrbs (deltaTime : R) (forceAttract : bool) (g : t) : t :=
  let (orbs, p) := orbLoop deltaTime forceAttract (expOrbs g) (player g) in
  let g := set_player p (set_expOrbs orbs g) in
  set_expOrbs
    (List.filter (fun orb => negb (ExpOrb.collected orb)) (expOrbs g)) g.

(** game.js 935-943: the chests. *)
Definition updateChests (deltaTime : R) (g : t) : t :=
  let (cs, g) := chestLoop deltaTime (chests g) g in
  let g := set_chests cs g in
  set_chests
    (List.filter (fun chest => negb (Chest.collected chest)) (chests g)) g.

(** game.js 945-947: the particles. *)
Definition updateParticles (deltaTime : R) (g : t) : t :=
  let g := set_particles (List.map (Particle.update deltaTime) (particles g))
             g in
  set_particles
    (List.filter (fun p => negb (Particle.isDead p)) (particles g)) g.

(** game.js 949-957: enemy and chest spawning. *)
Definition updateSpawns (deltaTime : R) (g : t) : t :=
  let g := spawnEnemies deltaTime g in
  let g := set_chestSpawnTimer (chestSpawnTimer g + deltaTime) g in
  if Rleb 45 (chestSpawnTimer g)
  then set_chestSpawnTimer 0 (spawnChest g) else g.

(** The condition of the boss check, game.js 960. *)
Definition bossDue (g : t) : bool :=
  (10 <=? Player.level (player g))%Z || Rleb 120 (survivalTime g).

(** game.js 959-962: the boss check. *)
Definition checkBoss (g : t) : t :=
  if negb (bossSpawned g) && bossDue g then spawnBoss g else g.

(** game.js 964-967: the defeat check. *)
Definition checkDeath (g : t) : t :=
  if Rleb (Player.hp (player g)) 0 then gameOver false g else g.

(** game.js 969-970: the score. *)
Definition updateScore (g : t) : t :=
  set_score (killCount g * 10 + Zfloor (survivalTime g) * 2)%Z g.

(** update(deltaTime), game.js 870-971. *)
Definition update (deltaTime : R) (g : t) : t :=
  let g := set_survivalTime (survivalTime g + deltaTime) g in
  let forceAttract := held (keys g) " " || held (keys g) "space" in
  let g := updatePlayer deltaTime g in
  let g := updateEnemies deltaTime g in
  let g := updateExpOrbs deltaTime forceAttract g in
  let g := updateChests deltaTime g in
  let g := updateParticles deltaTime g in
  let g := updateSpawns deltaTime g in
  let g := checkBoss g in
  let g := checkDeath g in
  updateScore g.

(** gameLoop(), game.js 855-868, [elapsed] seconds after the previous
    frame. *)
Definition gameLoop (elapsed : R) (g : t) : t :=
  let deltaTime := Rmin elapsed (1 / 10) in
  if GameState_eqb (state g) playing then update deltaTime g else g.

(** A pending timer fires. *)
Definition runTimer (tm : Timer) (g : t) : t :=
  match tm with
  | BossAttackHit id =>
      match store g !! id with
      | None => g
      | Some enemy =>
          let dist := Utils.distance (Player.x (player g))
                        (Player.y (player g)) (Enemy.x enemy) (Enemy.y enemy) in
          if Rltb dist 200
          then set_player (Player.takeDamage 15 (player g)) g
          else g
      end
  | SpeedBuffRevert => set_player (Player.set_speedBuff 1 (player g)) g
  end.

Definition fire (n : nat) (g : t) : t :=
  match timers g !! n with
  | None => g
  | Some tm => runTimer tm (set_timers (delete n (timers g)) g)
  end.

End Game.

(** ** The environment of the driver *)

Inductive Event :=
| Frame (elapsed : R)        (* requestAnimationFrame callback *)
| KeyDown (key : string)
| KeyUp (key : string)
| MouseDown (x y : R)
| MouseMove (x y : R)
| MouseUp
| SelectSkill (skill : SkillId)
| Fire (n : nat)             (* the n-th pending timer elapses *)
| Restart.

(** setupInput(), game.js 815-844, and the other entry points.  Key names
    arrive lower-cased. *)
Definition step (g : Game.t) (ev : Event) : Game.t :=
  match ev with
  | Frame elapsed => Game.gameLoop elapsed g
  | KeyDown k => Game.set_keys ({[k]} ∪ Game.keys g) g
  | KeyUp k => Game.set_keys (Game.keys g ∖ {[k]}) g
  | MouseDown x y => Game.handleMouseMove x y (Game.set_mousePressed true g)
  | MouseMove x y =>
      if Game.mousePressed g then Game.handleMouseMove x y g else g
  | MouseUp => Game.set_mousePressed false g
  | SelectSkill s => Game.selectSkill s g
  | Fire n => Game.fire n g
  | Restart => Game.init g
  end.

Definition run (g : Game.t) (evs : list Event) : Game.t :=
  fold_left step evs g.

(** ** Auxiliary definitions for the statements *)



(** The rational number that a finite binary64 number is (0 for an
    infinity and for a NaN). *)
Definition exact (f : float) : Q :=
  match Prim2SF f with
  | S754_finite s m e =>
      ((if s then -1 else 1) * inject_Z (Z.pos m) * 2 ^ e)%Q
  | _ => 0%Q
  end.




(** An enemy that is not slowed and has the speed of its archetype. *)
Definition unslowed (e : Enemy.t) : Prop :=
  Enemy.slowEffect e = 0
  /\ Enemy.speed e = Enemy.c_speed (Enemy.configs (Enemy.type e)).

Definition isBoss (e : Enemy.t) : bool := EnemyType_eqb (Enemy.type e) boss.

(** The number of boss objects created so far. *)
Definition bossCount (g : Game.t) : nat :=
  length (List.filter isBoss (Game.store g)).

(** [g'] has the level threshold, the level, the survival time, the boss
    flag and the number of bosses of [g], and its enemies are unslowed if
    those of [g] are. *)
Definition keeps (g g' : Game.t) : Prop :=
  Player.expToLevel (Game.player g') = Player.expToLevel (Game.player g)
  /\ Player.level (Game.player g') = Player.level (Game.player g)
  /\ Game.survivalTime g' = Game.survivalTime g
  /\ Game.bossSpawned g' = Game.bossSpawned g
  /\ bossCount g' = bossCount g
  /\ (Forall unslowed (Game.store g) -> Forall unslowed (Game.store g')).

(** The reference [id] of the array [this.enemies] leads to a boss. *)
Definition isBossRef (g : Game.t) (id : nat) : bool :=
  match Game.store g !! id with
  | Some e => isBoss e
  | None => false
  end.

(** The archetypes of the enemy objects created so far, in the order of
    their creation. *)
Definition types (g : Game.t) : list EnemyType :=
  List.map Enemy.type (Game.store g).

(** From [g] to [g'] no boss is created and none is put into play: the
    objects of [g] keep their archetypes, the objects created since are no
    bosses, and a reference of [this.enemies] that is new leads to an object
    created since. *)
Definition noBossEnters (g g' : Game.t) : Prop :=
  (exists tys : list EnemyType, types g' = types g ++ tys /\ ~ In boss tys)
  /\ forall id : nat,
      In id (Game.enemies g') ->
      In id (Game.enemies g)
      \/ (length (Game.store g) <= id < length (Game.store g'))%nat.

(** From [g] to [g'] one boss is spawned: a boss object is constructed
    and the reference to it is pushed last to [this.enemies], the flag
    [bossAlive] is set, and every other boss that [this.enemies] refers to
    in [g'] was referred to in [g]. *)
Definition bossEnters (g g' : Game.t) : Prop :=
  exists (ids : list nat) (st : list Enemy.t) (x y : R),
    Game.enemies g' = ids ++ [length st]
    /\ Game.store g' = st ++ [Enemy.new x y boss]
    /\ Game.bossAlive g' = true
    /\ forall id : nat,
        In id ids -> isBossRef g' id = true -> In id (Game.enemies g).

(** The position to which an enemy at full archetype speed, with no slow
    factor, moves in [deltaTime] when it chases the point
    [(playerX, playerY)]. *)
Definition fullSpeedChase (deltaTime playerX playerY : R) (e : Enemy.t)
  : R * R :=
  if Enemy.isDead e then (Enemy.x e, Enemy.y e)
  else
    let dx := playerX - Enemy.x e in
    let dy := playerY - Enemy.y e in
    let dist := sqrt (dx * dx + dy * dy) in
    let v := Enemy.c_speed (Enemy.configs (Enemy.type e)) in
    if Rltb 0 dist
    then (Enemy.x e + (dx / dist) * v * deltaTime,
          Enemy.y e + (dy / dist) * v * deltaTime)
    else (Enemy.x e, Enemy.y e).

(** The condition of the boss check of the update step that [gameLoop]
    runs on [g] after [el] seconds, on the values it will read: the level
    after the level-up check of that step and the clock after its
    advance. *)
Definition dueAhead (g : Game.t) (el : R) : bool :=
  let dt := Rmin el (1 / 10) in
  let p := (Player.checkLevelUp
              (Player.update dt (Game.keys g) (Game.arenaRadius g)
                 (Game.player g))).2 in
  (10 <=? Player.level p)%Z || Rleb 120 (Game.survivalTime g + dt).

(** An update step at whose boss check the condition holds. *)
Definition dueStep (g : Game.t) (ev : Event) : bool :=
  match ev with
  | Frame _ =>
      GameState_eqb (Game.state g) playing && Game.bossDue (step g ev)
  | _ => false
  end.

(** Some update step of the run of [evs] from [g] is such a step. *)
Fixpoint dueSeen (g : Game.t) (evs : list Event) : bool :=
  match evs with
  | [] => false
  | ev :: rest => dueStep g ev || dueSeen (step g ev) rest
  end.

(** ** Concrete scenes *)

(** A player standing at the origin of the coordinates with [weapons]
    weapons at orbit angle [angle], otherwise as constructed. *)
Definition hero (weapons : nat) (angle : R) : Player.t :=
  Player.set_currentAngle angle
    (Player.set_weaponCount weapons (Player.new 0 0)).

(** A boss on the x axis. *)
Definition bossAt (x hp cooldown : R) (dead : bool) : Enemy.t :=
  Enemy.set_isDead dead
    (Enemy.set_attackCooldown cooldown
       (Enemy.set_hp hp (Enemy.new x 0 boss))).

(** The oracle that always answers 1/2. *)
Definition halfOracle : nat -> R := fun _ => 1 / 2.

(** A session 130 s old (plus [t]) in which the boss [e] has been spawned
    and is the only enemy object; [t] is also the value of the three spawn
    timers.  No key is held and there are no chests. *)
Definition scene (p : Player.t) (e : Enemy.t) (ids : list nat) (t : R)
           (kills : Z) (orbs : list ExpOrb.t) (ps : list Particle.t)
           (tms : list Timer) (st : GameState) (alive : bool)
           (sc : Z) (final : option Z) (next : nat) : Game.t :=
  {| Game.centerX := 1200 / 2; Game.centerY := 800 / 2;
     Game.arenaRadius := 500;
     Game.keys := ∅; Game.mousePressed := false;
     Game.state := st; Game.isPaused := false;
     Game.player := p;
     Game.enemies := ids; Game.expOrbs := orbs; Game.chests := [];
     Game.particles := ps;
     Game.score := sc; Game.killCount := kills;
     Game.survivalTime := 130 + t;
     Game.enemySpawnTimer := t; Game.eliteSpawnTimer := t;
     Game.chestSpawnTimer := t;
     Game.bossSpawned := true; Game.bossAlive := alive;
     Game.store := [e]; Game.timers := tms; Game.finalScore := final;
     Game.rnd := halfOracle; Game.rndi := next |}.

(** The particles that outlive a frame. *)
Definition agedParticles (dt : R) (ps : list Particle.t) : list Particle.t :=
  List.filter (fun p => negb (Particle.isDead p))
    (List.map (Particle.update dt) ps).

(** The ring of particles of [createBossAttackWarning]. *)
Definition warningRing (x y : R) : list Particle.t :=
  List.map
    (fun i : nat =>
       Particle.new (x + cos ((INR i / 30) * PI * 2) * 200)
         (y + sin ((INR i / 30) * PI * 2) * 200) "#ff0000" 4 0 0 (5 / 10))
    (seq 0 30).

(** The scene of the double kill. *)
Definition killScene : Game.t :=
  scene (hero 6 318) (bossAt 82 10 3 false) [0%nat] 0 0 [] [] [] playing
    true 260 None 0.

(** The same scene with the two weapons of a new player: only one of them
    reaches the boss. *)
Definition duelScene : Game.t :=
  scene (hero 2 318) (bossAt 82 10 3 false) [0%nat] 0 0 [] [] [] playing
    true 260 None 0.

(** * Properties *)

(** ** Boolean comparisons *)

Lemma Rltb_true (a b : R) : a < b -> Rltb a b = true.
Proof. intros H. unfold Rltb. destruct (Rlt_dec a b); [reflexivity | lra]. Qed.

Lemma Rltb_false (a b : R) : b <= a -> Rltb a b = false.
Proof. intros H. unfold Rltb. destruct (Rlt_dec a b); [lra | reflexivity]. Qed.

Lemma Rleb_true (a b : R) : a <= b -> Rleb a b = true.
Proof. intros H. unfold Rleb. destruct (Rle_dec a b); [reflexivity | lra]. Qed.

Lemma Rleb_false (a b : R) : b < a -> Rleb a b = false.
Proof. intros H. unfold Rleb. destruct (Rle_dec a b); [lra | reflexivity]. Qed.

Lemma Rltb_spec (a b : R) : Rltb a b = true <-> a < b.
Proof.
  unfold Rltb. destruct (Rlt_dec a b); split; intros; try lra; congruence.
Qed.

Lemma Rleb_spec (a b : R) : Rleb a b = true <-> a <= b.
Proof.
  unfold Rleb. destruct (Rle_dec a b); split; intros; try lra; congruence.
Qed.

(** Decides the comparisons of a goal whose operands are numerals. *)
Ltac cmp :=
  repeat first
    [ rewrite Rltb_true by lra | rewrite Rltb_false by lra
    | rewrite Rleb_true by lra | rewrite Rleb_false by lra ].

(** ** Player.takeDamage *)








(** ** The countdowns of Player.update *)

Lemma update_invincible (dt : R) (keys : gset string) (arena : R)
      (p : Player.t) :
  Player.invincible (Player.update dt keys arena p)
  = if Rltb 0 (Player.invincible p)
    then Player.invincible p - dt else Player.invincible p.
Proof. reflexivity. Qed.

Lemma update_autoCollectBuff (dt : R) (keys : gset string) (arena : R)
      (p : Player.t) :
  Player.autoCollectBuff (Player.update dt keys arena p)
  = if Rltb 0 (Player.autoCollectBuff p)
    then Player.autoCollectBuff p - dt else Player.autoCollectBuff p.
Proof. reflexivity. Qed.

(** ** Player.checkLevelUp *)

(** C5.  [checkLevelUp] advances at most one level per call: with
    [exp >= expToLevel] it subtracts the threshold once, adds exactly 1 to
    the level and returns true, otherwise it changes nothing.  With exp 100
    and threshold 100, [gainExp(0)] then [checkLevelUp()] gives one level
    and exp 0; with exp 250 and threshold 100 one call gives one level and
    leaves exp 150. *)
Theorem checkLevelUp_single_step (p : Player.t) :
  let r := Player.checkLevelUp p in
  (Player.level p <= Player.level r.2 <= Player.level p + 1)%Z
  /\ (Player.expToLevel p <= Player.exp p ->
      r.1 = true
      /\ Player.level r.2 = (Player.level p + 1)%Z
      /\ Player.exp r.2 = Player.exp p - Player.expToLevel p)
  /\ (Player.exp p < Player.expToLevel p -> r = (false, p))
  /\ (Player.exp p = 100 -> Player.expToLevel p = 100 ->
      let r0 := Player.checkLevelUp (Player.gainExp 0 p) in
      r0.1 = true
      /\ Player.level r0.2 = (Player.level p + 1)%Z
      /\ Player.exp r0.2 = 0)
  /\ (Player.exp p = 250 -> Player.expToLevel p = 100 ->
      r.1 = true
      /\ Player.level r.2 = (Player.level p + 1)%Z
      /\ Player.exp r.2 = 150).
Proof.
  unfold Player.checkLevelUp, Player.gainExp. simpl.
  split; [|split; [|split; [|split]]].
  - destruct (Rleb _ _); simpl; lia.
  - intros H. rewrite Rleb_true by trivial. simpl. auto.
  - intros H. rewrite Rleb_false by trivial. reflexivity.
  - intros H1 H2. rewrite Rleb_true by lra. simpl.
    repeat split; trivial; lra.
  - intros H1 H2. rewrite Rleb_true by lra. simpl.
    repeat split; trivial; lra.
Qed.

Lemma checkLevelUp_single_step_witness :
  (let p := Player.set_exp 100 (Player.new 600 400) in
   let r0 := Player.checkLevelUp (Player.gainExp 0 p) in
   r0.1 = true /\ Player.level r0.2 = 2%Z /\ Player.exp r0.2 = 0)
  /\ (let p := Player.set_exp 250 (Player.new 600 400) in
      let r := Player.checkLevelUp p in
      r.1 = true /\ Player.level r.2 = 2%Z /\ Player.exp r.2 = 150)
  /\ (let p := Player.set_exp 99 (Player.new 600 400) in
      Player.checkLevelUp p = (false, p)).
Proof.
  split; [|split].
  - intros p r0.
    destruct (checkLevelUp_single_step p) as (_ & _ & _ & H & _).
    apply H; reflexivity.
  - intros p r.
    destruct (checkLevelUp_single_step p) as (_ & _ & _ & _ & H).
    apply H; reflexivity.
  - intros p.
    destruct (checkLevelUp_single_step p) as (_ & _ & H & _).
    apply H. simpl. lra.
Defined.

(** ** Player.update: the countdowns *)

(** C6, as the code has it.  For [deltaTime >= 0], [Player.update] subtracts
    [deltaTime] from a countdown that is positive and leaves any other
    countdown unchanged; nothing floors the result at zero, so a countdown
    that was [>= 0] ends [>= -deltaTime], possibly negative. *)
Theorem update_countdowns_not_floored
        (dt : R) (keys : gset string) (arena : R) (p : Player.t) :
  0 <= dt ->
  let p' := Player.update dt keys arena p in
  (0 < Player.invincible p ->
   Player.invincible p' = Player.invincible p - dt)
  /\ (Player.invincible p <= 0 -> Player.invincible p' = Player.invincible p)
  /\ (0 <= Player.invincible p -> - dt <= Player.invincible p')
  /\ (0 < Player.autoCollectBuff p ->
      Player.autoCollectBuff p' = Player.autoCollectBuff p - dt)
  /\ (Player.autoCollectBuff p <= 0 ->
      Player.autoCollectBuff p' = Player.autoCollectBuff p)
  /\ (0 <= Player.autoCollectBuff p -> - dt <= Player.autoCollectBuff p').
Proof.
  intros Hdt p'. subst p'.
  rewrite update_invincible, update_autoCollectBuff.
  repeat split; intros H.
  - now rewrite Rltb_true.
  - now rewrite Rltb_false.
  - unfold Rltb. destruct (Rlt_dec 0 (Player.invincible p)); lra.
  - now rewrite Rltb_true.
  - now rewrite Rltb_false.
  - unfold Rltb. destruct (Rlt_dec 0 (Player.autoCollectBuff p)); lra.
Qed.

Lemma update_countdowns_not_floored_witness :
  let p := Player.set_autoCollectBuff 30
             (Player.set_invincible (5 / 10) (Player.new 600 400)) in
  let p' := Player.update (1 / 10) ∅ 500 p in
  Player.invincible p' = 5 / 10 - 1 / 10
  /\ Player.autoCollectBuff p' = 30 - 1 / 10.
Proof.
  intros p p'.
  assert (Hdt : 0 <= 1 / 10) by lra.
  destruct (update_countdowns_not_floored (1 / 10) ∅ 500 p Hdt)
    as (H1 & _ & _ & H2 & _).
  split; [apply H1 | apply H2]; simpl; lra.
Defined.

(** C6, as stated, fails: a countdown of 0.05 s is left at -0.05 s by a
    frame of 0.1 s. *)
Lemma update_countdowns_negative :
  let p := Player.set_autoCollectBuff (5 / 100)
             (Player.set_invincible (5 / 100) (Player.new 600 400)) in
  let p' := Player.update (1 / 10) ∅ 500 p in
  0 <= 1 / 10
  /\ Player.invincible p' < 0
  /\ Player.autoCollectBuff p' < 0.
Proof.
  intros p p'. subst p' p.
  rewrite update_invincible, update_autoCollectBuff. simpl.
  cmp. lra.
Qed.

(** ** Player.update: the boundary *)

Lemma held_empty (k : string) : held ∅ k = false.
Proof. unfold held. apply bool_decide_eq_false. set_solver. Qed.

Lemma sqrt_lt_sq (x b : R) : 0 <= x -> 0 < b -> x < b * b -> sqrt x < b.
Proof.
  intros Hx Hb H. rewrite <- (sqrt_square b) by lra.
  apply sqrt_lt_1_alt. lra.
Qed.

Lemma sqrt_ge_sq (x b : R) : 0 <= b -> b * b <= x -> b <= sqrt x.
Proof.
  intros Hb H. rewrite <- (sqrt_square b) at 1 by lra.
  apply sqrt_le_1_alt. exact H.
Qed.

Lemma cos_sin_sq (a : R) : cos a * cos a + sin a * sin a = 1.
Proof. pose proof (sin2_cos2 a) as H. unfold Rsqr in H. lra. Qed.

Lemma sqrt_sqr_sum_0 (a : R) : 0 <= a -> sqrt (a * a + 0 * 0) = a.
Proof.
  intros H. replace (a * a + 0 * 0) with (a * a) by lra.
  now apply sqrt_square.
Qed.

(** After [Player.update] the player lies in the disk of radius
    [arenaRadius - radius] about the origin of the coordinates. *)
Lemma update_confined_about_origin
      (dt : R) (keys : gset string) (arena : R) (p : Player.t) :
  Player.radius p <= arena ->
  let p' := Player.update dt keys arena p in
  Utils.distance (Player.x p') (Player.y p') 0 0 <= arena - Player.radius p.
Proof.
  intros Hr p'. subst p'. unfold Utils.distance, Player.update.
  cbn [Player.x Player.y].
  set (x1 := Player.x p + _). set (y1 := Player.y p + _).
  destruct (Rltb arena (sqrt (x1 * x1 + y1 * y1) + Player.radius p)) eqn:E.
  - set (a := atan2 y1 x1). set (m := arena - Player.radius p).
    replace ((0 - cos a * m) ^ 2 + (0 - sin a * m) ^ 2)
      with (m * m * ((sin a)² + (cos a)²)) by (unfold Rsqr; ring).
    rewrite sin2_cos2, Rmult_1_r, sqrt_square; unfold m; lra.
  - replace ((0 - x1) ^ 2 + (0 - y1) ^ 2) with (x1 * x1 + y1 * y1) by ring.
    unfold Rltb in E.
    destruct (Rlt_dec arena (sqrt (x1 * x1 + y1 * y1) + Player.radius p));
      [discriminate | lra].
Qed.

(** With no key held and no pointer target, a player inside that disk
    keeps its position. *)
Lemma update_idle_position (dt arena : R) (p : Player.t) :
  Player.targetX p = None ->
  sqrt (Player.x p * Player.x p + Player.y p * Player.y p) + Player.radius p
  <= arena ->
  Player.x (Player.update dt ∅ arena p) = Player.x p
  /\ Player.y (Player.update dt ∅ arena p) = Player.y p.
Proof.
  intros Ht Hin. unfold Player.update. rewrite !held_empty, Ht.
  cbn [orb Player.x Player.y fst snd].
  replace (sqrt (0 * 0 + 0 * 0)) with 0
    by (rewrite sqrt_sqr_sum_0; lra).
  rewrite (Rltb_false 0 0) by lra.
  replace (Player.x p + 0 * (Player.speed p * Player.speedBuff p) * dt)
    with (Player.x p) by ring.
  replace (Player.y p + 0 * (Player.speed p * Player.speedBuff p) * dt)
    with (Player.y p) by ring.
  rewrite Rltb_false by lra. split; reflexivity.
Qed.

(** The player of a new session stands at the arena centre (600, 400),
    which is more than 480 from the origin: the first update, with no
    input at all, moves it onto the circle of radius 480 about the
    origin. *)
Lemma first_update_moves_player (dt : R) :
  let p' := Player.update dt ∅ 500 (Player.new 600 400) in
  Player.x p' * Player.x p' + Player.y p' * Player.y p' = 480 * 480.
Proof.
  intros p'. subst p'. unfold Player.update. rewrite !held_empty.
  cbn [Player.new orb fst snd Player.x Player.y Player.radius Player.speed
       Player.speedBuff Player.targetX Player.targetY].
  replace (sqrt (0 * 0 + 0 * 0)) with 0 by (rewrite sqrt_sqr_sum_0; lra).
  rewrite (Rltb_false 0 0) by lra.
  replace (600 + 0 * (100 * 1) * dt) with 600 by ring.
  replace (400 + 0 * (100 * 1) * dt) with 400 by ring.
  assert (H : 700 <= sqrt (600 * 600 + 400 * 400))
    by (apply sqrt_ge_sq; lra).
  rewrite Rltb_true by lra.
  set (a := atan2 400 600). pose proof (cos_sin_sq a). nra.
Qed.

(** C1 fails on the code.  The arena of the driver is the disk of radius
    [arenaRadius] about [(centerX, centerY)] = (600, 400), but
    [Player.update] measures the distance from (0, 0): a player standing at
    (0, 400) is left there, 600 units from the arena centre, where the
    specification allows at most [arenaRadius - radius] = 480. *)
Theorem update_not_confined_to_arena (oracle : nat -> R) :
  let g := Game.new oracle in
  let p := Player.set_y 400 (Player.set_x 0 (Game.player g)) in
  let p' := Player.update (1 / 10) (Game.keys g) (Game.arenaRadius g) p in
  Game.centerX g = 600 /\ Game.centerY g = 400
  /\ Game.arenaRadius g - Player.radius p' = 480
  /\ Player.x p' = 0 /\ Player.y p' = 400
  /\ Utils.distance (Player.x p') (Player.y p') (Game.centerX g)
       (Game.centerY g) = 600.
Proof.
  intros g p p'. subst p' p g. cbn [Game.new Game.init Game.construct
    Game.keys Game.arenaRadius Game.centerX Game.centerY Game.player
    Game.set_state Game.set_isPaused Game.set_player Game.set_enemies
    Game.set_expOrbs Game.set_chests Game.set_particles Game.set_score
    Game.set_killCount Game.set_survivalTime Game.set_enemySpawnTimer
    Game.set_eliteSpawnTimer Game.set_chestSpawnTimer Game.set_bossSpawned
    Game.set_bossAlive].
  set (p := Player.set_y 400 _).
  destruct (update_idle_position (1 / 10) 500 p) as [Hx Hy].
  - reflexivity.
  - cbn. rewrite Rmult_0_l, Rplus_0_l, sqrt_square; lra.
  - rewrite Hx, Hy. repeat split; try (cbn; lra).
    unfold Utils.distance. cbn. apply sqrt_lem_1; lra.
Qed.

(** ** What the operations of the driver leave unchanged *)

Lemma keeps_refl (g : Game.t) : keeps g g.
Proof. unfold keeps. tauto. Qed.

Lemma keeps_trans (g1 g2 g3 : Game.t) :
  keeps g1 g2 -> keeps g2 g3 -> keeps g1 g3.
Proof.
  unfold keeps. intros (A1 & A2 & A3 & A4 & A5 & A6) (B1 & B2 & B3 & B4 & B5 & B6).
  repeat split; try congruence. auto.
Qed.

Lemma keeps_iter (n : nat) (f : Game.t -> Game.t) :
  (forall g, keeps g (f g)) -> forall g, keeps g (Nat.iter n f g).
Proof.
  intros Hf g. induction n as [|n IH]; simpl.
  - apply keeps_refl.
  - eapply keeps_trans; [apply IH | apply Hf].
Qed.

Lemma keeps_fold {A : Type} (f : Game.t -> A -> Game.t) (l : list A) :
  (forall g a, keeps g (f g a)) -> forall g, keeps g (fold_left f l g).
Proof.
  intros Hf. induction l as [|a l IH]; intros g; simpl.
  - apply keeps_refl.
  - eapply keeps_trans; [apply Hf | apply IH].
Qed.

(** Operations that touch neither the player's level fields, nor the
    clock, nor the boss flag, nor the store. *)
Ltac keeps_simple :=
  unfold keeps, bossCount; cbn; repeat split; auto.

Lemma keeps_dropOrb (e : Enemy.t) (g : Game.t) : keeps g (Game.dropOrb e g).
Proof. keeps_simple. Qed.

Lemma keeps_burstParticle (e : Enemy.t) (g : Game.t) :
  keeps g (Game.burstParticle e g).
Proof. keeps_simple. Qed.

Lemma keeps_killEnemy (e : Enemy.t) (g : Game.t) : keeps g (Game.killEnemy e g).
Proof.
  unfold Game.killEnemy.
  set (g1 := Game.set_killCount _ g).
  assert (H1 : keeps g g1) by keeps_simple.
  set (g2 := Nat.iter 3 _ g1).
  assert (H2 : keeps g1 g2) by (apply keeps_iter, keeps_dropOrb).
  set (g3 := Nat.iter 10 _ g2).
  assert (H3 : keeps g2 g3) by (apply keeps_iter, keeps_burstParticle).
  apply (keeps_trans _ g3); [eauto using keeps_trans|].
  destruct (Enemy.type e); try apply keeps_refl. keeps_simple.
Qed.

Lemma keeps_createBossAttackWarning (x y : R) (g : Game.t) :
  keeps g (Game.createBossAttackWarning x y g).
Proof. keeps_simple. Qed.

Lemma keeps_applyChestReward (r : RewardId) (g : Game.t) :
  keeps g (Game.applyChestReward r g).
Proof. destruct r; keeps_simple. Qed.

Lemma keeps_applySkill (s : SkillId) (g : Game.t) :
  keeps g (Game.applySkill s g).
Proof. destruct s; keeps_simple. Qed.

Lemma keeps_takeDamage (d : R) (g : Game.t) :
  keeps g (Game.set_player (Player.takeDamage d (Game.player g)) g).
Proof.
  unfold Player.takeDamage.
  destruct (Rltb 0 _); [keeps_simple|].
  destruct (Rltb _ 0); keeps_simple.
Qed.

(** ** Writes to the enemy store *)

Lemma filter_isBoss_insert (s : list Enemy.t) :
  forall (id : nat) (e e' : Enemy.t),
    s !! id = Some e -> isBoss e' = isBoss e ->
    length (List.filter isBoss (<[id := e']> s))
    = length (List.filter isBoss s).
Proof.
  induction s as [|a s IH]; intros id e e' Hl Hb.
  - discriminate.
  - destruct id as [|id]; simpl in *.
    + injection Hl as ->. rewrite Hb. destruct (isBoss e); reflexivity.
    + destruct (isBoss a); simpl; rewrite (IH id e e' Hl Hb); reflexivity.
Qed.

Lemma update_type (dt px py : R) (e : Enemy.t) :
  Enemy.type (Enemy.update dt px py e) = Enemy.type e.
Proof. unfold Enemy.update. destruct (Enemy.isDead e); reflexivity. Qed.

Lemma update_unslowed (dt px py : R) (e : Enemy.t) :
  unslowed e -> unslowed (Enemy.update dt px py e).
Proof.
  intros [Hs Hv]. unfold unslowed, Enemy.update.
  destruct (Enemy.isDead e); [tauto|]. cbn.
  rewrite Hs, Rltb_false by lra. tauto.
Qed.

Lemma takeDamage_type (d : R) (e : Enemy.t) :
  Enemy.type (Enemy.takeDamage d e) = Enemy.type e.
Proof. unfold Enemy.takeDamage. destruct (Rleb _ _); reflexivity. Qed.

Lemma takeDamage_unslowed (d : R) (e : Enemy.t) :
  unslowed e -> unslowed (Enemy.takeDamage d e).
Proof.
  unfold unslowed, Enemy.takeDamage. destruct (Rleb _ _); cbn; tauto.
Qed.

Lemma performAttack_unslowed (e : Enemy.t) :
  unslowed e -> unslowed (Enemy.performAttack e).
Proof. unfold unslowed. cbn. tauto. Qed.

Lemma new_unslowed (x y : R) (ty : EnemyType) : unslowed (Enemy.new x y ty).
Proof. unfold unslowed. cbn. tauto. Qed.

Lemma keeps_putEnemy (id : nat) (e e' : Enemy.t) (g : Game.t) :
  Game.store g !! id = Some e ->
  Enemy.type e' = Enemy.type e ->
  (unslowed e -> unslowed e') ->
  keeps g (Game.putEnemy id e' g).
Proof.
  intros Hl Ht Hu. unfold keeps, bossCount. cbn. repeat split; trivial.
  - apply (filter_isBoss_insert _ id e e' Hl). unfold isBoss. now rewrite Ht.
  - intros HF. apply Forall_insert; trivial.
    apply Hu. exact (Forall_lookup_1 _ _ _ _ HF Hl).
Qed.

Lemma keeps_pushEnemy (x y : R) (ty : EnemyType) (g : Game.t) :
  ty <> boss -> keeps g (Game.pushEnemy (Enemy.new x y ty) g).
Proof.
  intros Hty. unfold keeps, bossCount. cbn. repeat split; trivial.
  - rewrite List.filter_app, length_app. cbn.
    destruct ty; cbn; try lia. congruence.
  - intros HF. apply Forall_app. split; trivial.
    constructor; [apply new_unslowed | constructor].
Qed.

Lemma keeps_weaponStep (id : nat) (g : Game.t) (wp : Player.WeaponPos) :
  keeps g (Game.weaponStep id g wp).
Proof.
  unfold Game.weaponStep.
  destruct (Game.store g !! id) as [e|] eqn:Hl; [|apply keeps_refl].
  destruct (Utils.circleCollision _ _ _ _ _ _); [|apply keeps_refl].
  set (e' := Enemy.takeDamage _ e).
  assert (H : keeps g (Game.putEnemy id e' g)).
  { eapply keeps_putEnemy; eauto using takeDamage_type, takeDamage_unslowed. }
  destruct (Enemy.isDead e'); trivial.
  eapply keeps_trans; [exact H | apply keeps_killEnemy].
Qed.

Lemma keeps_enemyStep (dt : R) (g : Game.t) (id : nat) :
  keeps g (Game.enemyStep dt g id).
Proof.
  unfold Game.enemyStep.
  destruct (Game.store g !! id) as [e|] eqn:Hl; [|apply keeps_refl].
  set (e1 := Enemy.update dt _ _ e).
  set (g1 := Game.putEnemy id e1 g).
  assert (H1 : keeps g g1).
  { eapply keeps_putEnemy; eauto using update_type, update_unslowed. }
  set (g2 := if Utils.circleCollision _ _ _ _ _ _ then _ else g1).
  assert (H2 : keeps g1 g2).
  { subst g2. destruct (Utils.circleCollision _ _ _ _ _ _);
      [apply keeps_takeDamage | apply keeps_refl]. }
  set (g3 := fold_left _ _ g2).
  assert (H3 : keeps g2 g3) by (apply keeps_fold, keeps_weaponStep).
  assert (H : keeps g g3) by eauto using keeps_trans.
  destruct (Game.store g3 !! id) as [e3|] eqn:Hl3; trivial.
  destruct (Enemy.canAttack e3); trivial.
  set (g4 := Game.putEnemy id (Enemy.performAttack e3) g3).
  assert (H4 : keeps g3 g4).
  { apply (keeps_putEnemy id e3);
      [exact Hl3 | reflexivity | apply performAttack_unslowed]. }
  set (g5 := Game.createBossAttackWarning _ _ g4).
  assert (H5 : keeps g4 g5) by apply keeps_createBossAttackWarning.
  assert (H6 : keeps g5 (Game.set_timers (Game.timers g5 ++ [BossAttackHit id]) g5))
    by keeps_simple.
  eauto using keeps_trans.
Qed.

Lemma keeps_updateEnemies (dt : R) (g : Game.t) :
  keeps g (Game.updateEnemies dt g).
Proof.
  unfold Game.updateEnemies.
  set (g1 := fold_left _ _ g).
  assert (H1 : keeps g g1) by (apply keeps_fold, keeps_enemyStep).
  clearbody g1. apply (keeps_trans _ g1); [exact H1 | keeps_simple].
Qed.

Lemma orbLoop_player (dt : R) (force : bool) (orbs : list ExpOrb.t) :
  forall p : Player.t,
    let p' := (Game.orbLoop dt force orbs p).2 in
    Player.expToLevel p' = Player.expToLevel p
    /\ Player.level p' = Player.level p.
Proof.
  induction orbs as [|o orbs IH]; intros p; cbn; [tauto|].
  destruct (ExpOrb.update dt p force o) as [gained o1].
  set (p1 := match gained with Some _ => _ | None => p end).
  assert (H1 : Player.expToLevel p1 = Player.expToLevel p
               /\ Player.level p1 = Player.level p).
  { subst p1. destruct gained as [v|]; [destruct (Rltb 0 v)|]; cbn; tauto. }
  specialize (IH p1). cbn in IH.
  destruct (Game.orbLoop dt force orbs p1) as [rest p2]. cbn in *.
  destruct IH, H1. split; congruence.
Qed.

Lemma keeps_updateExpOrbs (dt : R) (force : bool) (g : Game.t) :
  keeps g (Game.updateExpOrbs dt force g).
Proof.
  unfold Game.updateExpOrbs.
  pose proof (orbLoop_player dt force (Game.expOrbs g) (Game.player g)) as H.
  destruct (Game.orbLoop dt force (Game.expOrbs g) (Game.player g))
    as [orbs p]. cbn in H. destruct H. keeps_simple.
Qed.

Lemma keeps_chestLoop (dt : R) (cs : list Chest.t) :
  forall g : Game.t, keeps g (Game.chestLoop dt cs g).2.
Proof.
  induction cs as [|c cs IH]; intros g; cbn; [apply keeps_refl|].
  destruct (Chest.update dt (Game.player g) _ c) as [reward c1].
  set (g1 := if _ && _ then _ else g).
  assert (H1 : keeps g g1).
  { subst g1. destruct (_ && _); [keeps_simple | apply keeps_refl]. }
  set (g2 := match reward with Some _ => _ | None => g1 end).
  assert (H2 : keeps g1 g2).
  { subst g2. destruct reward;
      [apply keeps_applyChestReward | apply keeps_refl]. }
  specialize (IH g2).
  destruct (Game.chestLoop dt cs g2) as [rest g3]. cbn in *.
  eauto using keeps_trans.
Qed.

Lemma keeps_updateChests (dt : R) (g : Game.t) :
  keeps g (Game.updateChests dt g).
Proof.
  unfold Game.updateChests.
  pose proof (keeps_chestLoop dt (Game.chests g) g) as H.
  destruct (Game.chestLoop dt (Game.chests g) g) as [cs g1]. cbn in H.
  apply (keeps_trans _ g1); [exact H | keeps_simple].
Qed.

Lemma keeps_updateParticles (dt : R) (g : Game.t) :
  keeps g (Game.updateParticles dt g).
Proof. keeps_simple. Qed.

Lemma keeps_spawnEnemy (ty : EnemyType) (g : Game.t) :
  ty <> boss -> keeps g (Game.spawnEnemy ty g).
Proof.
  intros Hty. unfold Game.spawnEnemy, Game.randomFloat, Game.random.
  set (g1 := Game.set_rndi _ g).
  apply (keeps_trans _ g1); [keeps_simple | now apply keeps_pushEnemy].
Qed.

Lemma keeps_spawnEnemies (dt : R) (g : Game.t) :
  keeps g (Game.spawnEnemies dt g).
Proof.
  unfold Game.spawnEnemies.
  set (g1 := Game.set_enemySpawnTimer _ g).
  assert (H1 : keeps g g1) by keeps_simple.
  set (g2 := if Rleb 10 _ then _ else g1).
  assert (H2 : keeps g1 g2).
  { subst g2. destruct (Rleb 10 _); [|apply keeps_refl].
    set (g2 := Nat.iter _ _ g1).
    assert (H2 : keeps g1 g2).
    { apply keeps_iter. intros g0. now apply keeps_spawnEnemy. }
    clearbody g2. apply (keeps_trans _ g2); [exact H2 | keeps_simple]. }
  assert (H : keeps g g2) by eauto using keeps_trans.
  destruct (Rleb 30 (Game.survivalTime g2)); trivial.
  set (g3 := Game.set_eliteSpawnTimer _ g2).
  assert (H3 : keeps g2 g3) by keeps_simple.
  destruct (Rleb 30 (Game.eliteSpawnTimer g3)); [|eauto using keeps_trans].
  set (g4 := Game.spawnEnemy elite g3).
  assert (H4 : keeps g3 g4) by now apply keeps_spawnEnemy.
  clearbody g4 g3 g2 g1.
  assert (H5 : keeps g4 (Game.set_eliteSpawnTimer 0 g4)) by keeps_simple.
  eauto using keeps_trans.
Qed.

Lemma keeps_spawnChestLoop (left : nat) :
  forall g : Game.t, keeps g (Game.spawnChestLoop left g).
Proof.
  induction left as [|left IH]; intros g; cbn; [apply keeps_refl|].
  destruct (negb _); [keeps_simple|].
  set (g1 := Game.set_rndi _ _).
  apply (keeps_trans _ g1); [keeps_simple | apply IH].
Qed.

Lemma keeps_updateSpawns (dt : R) (g : Game.t) :
  keeps g (Game.updateSpawns dt g).
Proof.
  unfold Game.updateSpawns.
  pose proof (keeps_spawnEnemies dt g) as H0.
  set (g0 := Game.spawnEnemies dt g) in *. clearbody g0.
  set (g1 := Game.set_chestSpawnTimer _ _).
  assert (H1 : keeps g g1).
  { apply (keeps_trans _ g0); [exact H0 | keeps_simple]. }
  clearbody g1.
  destruct (Rleb 45 _); trivial.
  pose proof (keeps_spawnChestLoop 10 g1) as H2.
  unfold Game.spawnChest. set (g2 := Game.spawnChestLoop 10 g1) in *.
  clearbody g2.
  assert (H3 : keeps g2 (Game.set_chestSpawnTimer 0 g2)) by keeps_simple.
  eauto using keeps_trans.
Qed.

Lemma keeps_checkDeath (g : Game.t) : keeps g (Game.checkDeath g).
Proof. unfold Game.checkDeath. destruct (Rleb _ 0); keeps_simple. Qed.

Lemma keeps_updateScore (g : Game.t) : keeps g (Game.updateScore g).
Proof. keeps_simple. Qed.

(** The player block changes the level only through [checkLevelUp]. *)
Lemma updatePlayer_effect (dt : R) (g : Game.t) :
  let g' := Game.updatePlayer dt g in
  Player.expToLevel (Game.player g') = Player.expToLevel (Game.player g)
  /\ Player.level (Game.player g')
     = Player.level
         (Player.checkLevelUp
            (Player.update dt (Game.keys g) (Game.arenaRadius g)
               (Game.player g))).2
  /\ Game.survivalTime g' = Game.survivalTime g
  /\ Game.bossSpawned g' = Game.bossSpawned g
  /\ Game.store g' = Game.store g.
Proof.
  unfold Game.updatePlayer. cbn [Game.player Game.set_player].
  set (p := Player.update dt _ _ _).
  assert (He : Player.expToLevel (Player.checkLevelUp p).2
               = Player.expToLevel (Game.player g)).
  { unfold Player.checkLevelUp. destruct (Rleb _ _); reflexivity. }
  destruct (Player.checkLevelUp p) as [[|] p1]; cbn in *; tauto.
Qed.

(** The boss check. *)
Lemma checkBoss_effect (g : Game.t) :
  let g' := Game.checkBoss g in
  Player.expToLevel (Game.player g') = Player.expToLevel (Game.player g)
  /\ Player.level (Game.player g') = Player.level (Game.player g)
  /\ Game.survivalTime g' = Game.survivalTime g
  /\ Game.bossSpawned g' = Game.bossSpawned g || Game.bossDue g
  /\ bossCount g'
     = (bossCount g
        + if negb (Game.bossSpawned g) && Game.bossDue g then 1 else 0)%nat
  /\ (Forall unslowed (Game.store g) -> Forall unslowed (Game.store g')).
Proof.
  unfold Game.checkBoss.
  destruct (Game.bossSpawned g) eqn:Hs; cbn [negb andb orb].
  - rewrite Hs. repeat split; auto.
  - destruct (Game.bossDue g) eqn:Hd.
    + unfold bossCount. cbn. repeat split; trivial.
      * rewrite List.filter_app, length_app. reflexivity.
      * intros HF. apply Forall_app. split; trivial.
        constructor; [apply new_unslowed | constructor].
    + rewrite Hs. repeat split; auto.
Qed.

(** One update step, seen from the fields the boss check depends on. *)
Lemma update_effect (dt : R) (g : Game.t) :
  let g' := Game.update dt g in
  Player.expToLevel (Game.player g') = Player.expToLevel (Game.player g)
  /\ Player.level (Game.player g')
     = Player.level
         (Player.checkLevelUp
            (Player.update dt (Game.keys g) (Game.arenaRadius g)
               (Game.player g))).2
  /\ Game.survivalTime g' = Game.survivalTime g + dt
  /\ Game.bossSpawned g' = Game.bossSpawned g || Game.bossDue g'
  /\ bossCount g'
     = (bossCount g
        + if negb (Game.bossSpawned g) && Game.bossDue g' then 1 else 0)%nat
  /\ (Forall unslowed (Game.store g) -> Forall unslowed (Game.store g')).
Proof.
  unfold Game.update.
  set (g0 := Game.set_survivalTime _ g).
  set (force := held _ _ || held _ _).
  pose proof (updatePlayer_effect dt g0) as (P1 & P2 & P3 & P4 & P5).
  set (g1 := Game.updatePlayer dt g0) in *. clearbody g1.
  pose proof (keeps_updateEnemies dt g1) as K2.
  set (g2 := Game.updateEnemies dt g1) in *. clearbody g2.
  pose proof (keeps_updateExpOrbs dt force g2) as K3.
  set (g3 := Game.updateExpOrbs dt force g2) in *. clearbody g3.
  pose proof (keeps_updateChests dt g3) as K4.
  set (g4 := Game.updateChests dt g3) in *. clearbody g4.
  pose proof (keeps_updateParticles dt g4) as K5.
  set (g5 := Game.updateParticles dt g4) in *. clearbody g5.
  pose proof (keeps_updateSpawns dt g5) as K6.
  set (g6 := Game.updateSpawns dt g5) in *. clearbody g6.
  assert (K : keeps g1 g6) by eauto using keeps_trans.
  clear K2 K3 K4 K5 K6. destruct K as (K1 & K2 & K3 & K4 & K5 & K6).
  pose proof (checkBoss_effect g6) as (B1 & B2 & B3 & B4 & B5 & B6).
  set (g7 := Game.checkBoss g6) in *.
  assert (HD : Game.bossDue g7 = Game.bossDue g6).
  { unfold Game.bossDue. now rewrite B2, B3. }
  clearbody g7.
  pose proof (keeps_checkDeath g7) as K7.
  set (g8 := Game.checkDeath g7) in *. clearbody g8.
  pose proof (keeps_updateScore g8) as K8.
  set (g9 := Game.updateScore g8) in *. clearbody g9.
  assert (K9 : keeps g7 g9) by eauto using keeps_trans.
  destruct K9 as (F1 & F2 & F3 & F4 & F5 & F6).
  assert (HD9 : Game.bossDue g9 = Game.bossDue g6).
  { rewrite <- HD. unfold Game.bossDue. now rewrite F2, F3. }
  assert (HS : Game.bossSpawned g6 = Game.bossSpawned g).
  { rewrite K4, P4. reflexivity. }
  assert (HC : bossCount g6 = bossCount g).
  { rewrite K5. unfold bossCount. rewrite P5. reflexivity. }
  rewrite HD9. repeat split.
  - rewrite F1, B1, K1, P1. reflexivity.
  - rewrite F2, B2, K2, P2. reflexivity.
  - rewrite F3, B3, K3, P3. reflexivity.
  - rewrite F4, B4, HS. reflexivity.
  - rewrite F5, B5, HS, HC. reflexivity.
  - intros HF. apply F6, B6, K6. rewrite P5. exact HF.
Qed.

(** ** The events of the environment *)

Lemma keeps_fire (n : nat) (g : Game.t) : keeps g (Game.fire n g).
Proof.
  unfold Game.fire. destruct (Game.timers g !! n) as [tm|]; [|apply keeps_refl].
  set (g1 := Game.set_timers _ g).
  assert (H1 : keeps g g1) by keeps_simple. clearbody g1.
  apply (keeps_trans _ g1); trivial.
  destruct tm as [id|]; cbn.
  - destruct (Game.store g1 !! id) as [e|]; [|apply keeps_refl].
    destruct (Rltb _ 200); [apply keeps_takeDamage | apply keeps_refl].
  - keeps_simple.
Qed.

Lemma keeps_selectSkill (s : SkillId) (g : Game.t) :
  keeps g (Game.selectSkill s g).
Proof.
  unfold Game.selectSkill.
  pose proof (keeps_applySkill s g) as H.
  set (g1 := Game.applySkill s g) in *. clearbody g1.
  apply (keeps_trans _ g1); [exact H | keeps_simple].
Qed.

(** Every event but a frame and a restart. *)
Lemma keeps_step (g : Game.t) (ev : Event) :
  match ev with Frame _ | Restart => True | _ => keeps g (step g ev) end.
Proof.
  destruct ev; trivial; cbn [step].
  - keeps_simple.
  - keeps_simple.
  - keeps_simple.
  - destruct (Game.mousePressed g); keeps_simple.
  - keeps_simple.
  - apply keeps_selectSkill.
  - apply keeps_fire.
Qed.

Lemma step_expToLevel (g : Game.t) (ev : Event) :
  Player.expToLevel (Game.player g) = 100 ->
  Player.expToLevel (Game.player (step g ev)) = 100.
Proof.
  intros H. pose proof (keeps_step g ev) as K.
  destruct ev as [el| | | | | | | |];
    try (destruct K as (-> & _); exact H).
  - cbn [step]. unfold Game.gameLoop.
    destruct (GameState_eqb _ _); trivial.
    destruct (update_effect (Rmin el (1 / 10)) g) as (-> & _). exact H.
  - reflexivity.
Qed.

Lemma step_unslowed (g : Game.t) (ev : Event) :
  Forall unslowed (Game.store g) -> Forall unslowed (Game.store (step g ev)).
Proof.
  intros H. pose proof (keeps_step g ev) as K.
  destruct ev as [el| | | | | | | |];
    try (destruct K as (_ & _ & _ & _ & _ & K); exact (K H)).
  - cbn [step]. unfold Game.gameLoop.
    destruct (GameState_eqb _ _); trivial.
    destruct (update_effect (Rmin el (1 / 10)) g)
      as (_ & _ & _ & _ & _ & K'). exact (K' H).
  - exact H.
Qed.

(** The boss flag and the number of bosses across one event of a
    session. *)
Lemma step_boss (g : Game.t) (ev : Event) :
  ev <> Restart ->
  Game.bossSpawned (step g ev) = Game.bossSpawned g || dueStep g ev
  /\ bossCount (step g ev)
     = (bossCount g
        + if negb (Game.bossSpawned g) && dueStep g ev then 1 else 0)%nat.
Proof.
  intros Hev. pose proof (keeps_step g ev) as K.
  destruct ev as [el| | | | | | | |]; try congruence;
    try (destruct K as (_ & _ & _ & -> & -> & _); cbn [dueStep];
         rewrite orb_false_r, andb_false_r; split; [reflexivity | lia]).
  cbn [dueStep step]. unfold Game.gameLoop.
  destruct (GameState_eqb (Game.state g) playing); cbn [andb].
  - destruct (update_effect (Rmin el (1 / 10)) g)
      as (_ & _ & _ & H1 & H2 & _). split; assumption.
  - rewrite orb_false_r, andb_false_r. split; [reflexivity | lia].
Qed.

(** ** C9 *)

(** C9.  No operation assigns [expToLevel]: it is 100 in every state the
    driver reaches, and [checkLevelUp] and the level-up rewards leave it as
    it is. *)
Theorem expToLevel_never_changes :
  (forall (oracle : nat -> R) (evs : list Event),
      Player.expToLevel (Game.player (run (Game.new oracle) evs)) = 100)
  /\ (forall p : Player.t,
         Player.expToLevel (Player.checkLevelUp p).2 = Player.expToLevel p)
  /\ (forall (s : SkillId) (g : Game.t),
         Player.expToLevel (Game.player (Game.applySkill s g))
         = Player.expToLevel (Game.player g))
  /\ (forall (g : Game.t) (ev : Event),
         Player.expToLevel (Game.player (step g ev))
         = match ev with
           | Restart => 100
           | _ => Player.expToLevel (Game.player g)
           end).
Proof.
  repeat split.
  - intros oracle evs. unfold run.
    assert (H : Player.expToLevel (Game.player (Game.new oracle)) = 100)
      by reflexivity.
    revert H. generalize (Game.new oracle).
    induction evs as [|ev evs IH]; intros g H; simpl; trivial.
    apply IH, step_expToLevel, H.
  - intros p. unfold Player.checkLevelUp. destruct (Rleb _ _); reflexivity.
  - intros s g. apply keeps_applySkill.
  - intros g ev. pose proof (keeps_step g ev) as K.
    destruct ev as [el| | | | | | | |]; try (destruct K as (K & _); exact K).
    + cbn [step]. unfold Game.gameLoop.
      destruct (GameState_eqb _ _); trivial.
      apply update_effect.
    + reflexivity.
Qed.

(** ** C10 *)

Lemma run_unslowed (evs : list Event) :
  forall g : Game.t,
    Forall unslowed (Game.store g) ->
    Forall unslowed (Game.store (run g evs)).
Proof.
  unfold run. induction evs as [|ev evs IH]; intros g H; simpl; trivial.
  apply IH, step_unslowed, H.
Qed.

Lemma unslowed_chase (dt px py : R) (e : Enemy.t) :
  unslowed e ->
  Enemy.slowEffect e <= 0
  /\ Enemy.slowEffect (Enemy.update dt px py e) <= 0
  /\ Enemy.speedMult (Enemy.slowEffect e) = 1
  /\ (Enemy.x (Enemy.update dt px py e), Enemy.y (Enemy.update dt px py e))
     = fullSpeedChase dt px py e.
Proof.
  intros [Hs Hv]. unfold fullSpeedChase, Enemy.update, Enemy.speedMult.
  rewrite Hs, Hv, (Rltb_false 0 0) by lra.
  destruct (Enemy.isDead e); cbn; rewrite ?Hs.
  - repeat split; lra.
  - rewrite ?(Rltb_false 0 0) by lra.
    destruct (Rltb 0 _); repeat split; try lra; f_equal; ring.
Qed.

(** [Enemy.applySlow] is what would slow an elite: the invariant depends on
    the driver never calling it. *)
Lemma applySlow_slows (x y : R) :
  let e := Enemy.applySlow (Enemy.new x y elite) in
  Enemy.slowEffect e = 2 /\ Enemy.speedMult (Enemy.slowEffect e) = 7 / 10.
Proof. cbn. unfold Enemy.speedMult. now rewrite Rltb_true by lra. Qed.

(** C10.  In every state the driver reaches, every enemy object has a slow
    countdown [<= 0], before and after its own update, so its speed factor
    is 1 and [Enemy.update] moves it at the full speed of its archetype:
    nothing in the driver calls [Enemy.applySlow].  The same holds from any
    state whose enemies are unslowed. *)
Theorem enemies_never_slowed (g0 : Game.t) (evs : list Event) :
  Forall unslowed (Game.store g0) ->
  Forall
    (fun e : Enemy.t =>
       Enemy.slowEffect e <= 0
       /\ Enemy.speed e = Enemy.c_speed (Enemy.configs (Enemy.type e))
       /\ forall dt px py : R,
           Enemy.slowEffect (Enemy.update dt px py e) <= 0
           /\ Enemy.speedMult (Enemy.slowEffect e) = 1
           /\ (Enemy.x (Enemy.update dt px py e),
               Enemy.y (Enemy.update dt px py e))
              = fullSpeedChase dt px py e)
    (Game.store (run g0 evs))
  /\ forall oracle : nat -> R,
      Forall unslowed (Game.store (run (Game.new oracle) evs)).
Proof.
  intros H0. split.
  - pose proof (run_unslowed evs g0 H0) as H.
    eapply Forall_impl; [exact H|]. intros e He.
    split; [|split].
    + destruct He as [-> _]. lra.
    + apply He.
    + intros dt px py. pose proof (unslowed_chase dt px py e He). tauto.
  - intros oracle. apply run_unslowed. constructor.
Qed.

Lemma enemies_never_slowed_witness :
  let g0 := Game.pushEnemy (Enemy.new 30 40 elite) (Game.new (fun _ => 0)) in
  let evs := [KeyDown "a"; MouseDown 10 10; MouseUp] in
  Forall (fun e : Enemy.t =>
            Enemy.slowEffect e <= 0
            /\ Enemy.speedMult (Enemy.slowEffect e) = 1)
    (Game.store (run g0 evs)).
Proof.
  intros g0 evs.
  assert (H0 : Forall unslowed (Game.store g0)).
  { cbn. constructor; [apply new_unslowed | constructor]. }
  destruct (enemies_never_slowed g0 evs H0) as [H _].
  eapply Forall_impl; [exact H|]. cbn beta. intros e (H1 & _ & H3).
  split; [exact H1 | apply (H3 0 0 0)].
Defined.

(** ** C7 *)

Lemma run_snoc (g : Game.t) (pre : list Event) (ev : Event) :
  run g (pre ++ [ev]) = step (run g pre) ev.
Proof. unfold run. now rewrite fold_left_app. Qed.

Lemma dueSeen_snoc (pre : list Event) (ev : Event) :
  forall g : Game.t,
    dueSeen g (pre ++ [ev]) = dueSeen g pre || dueStep (run g pre) ev.
Proof.
  induction pre as [|a pre IH]; intros g; simpl.
  - now rewrite orb_false_r.
  - rewrite IH. now rewrite orb_assoc.
Qed.

Lemma run_boss (evs : list Event) :
  forall g : Game.t,
    Forall (fun ev => ev <> Restart) evs ->
    Game.bossSpawned (run g evs) = Game.bossSpawned g || dueSeen g evs
    /\ bossCount (run g evs)
       = (bossCount g
          + if negb (Game.bossSpawned g) && dueSeen g evs then 1 else 0)%nat.
Proof.
  induction evs as [|ev evs IH]; intros g HF; simpl.
  - rewrite orb_false_r, andb_false_r. split; [reflexivity | lia].
  - inversion HF as [|? ? Hev Hrest]; subst.
    destruct (step_boss g ev Hev) as [S1 S2].
    destruct (IH (step g ev) Hrest) as [I1 I2].
    fold (run (step g ev) evs). rewrite I1, I2, S1, S2.
    destruct (Game.bossSpawned g), (dueStep g ev), (dueSeen (step g ev) evs);
      cbn; split; trivial; lia.
Qed.

Lemma dueStep_frame (g : Game.t) (el : R) :
  dueStep g (Frame el)
  = GameState_eqb (Game.state g) playing && dueAhead g el.
Proof.
  cbn [dueStep step]. unfold Game.gameLoop, dueAhead.
  destruct (GameState_eqb (Game.state g) playing); [|reflexivity].
  cbn [andb]. unfold Game.bossDue.
  destruct (update_effect (Rmin el (1 / 10)) g) as (_ & -> & -> & _).
  reflexivity.
Qed.

(** ** Which references lead to a boss *)

Lemma nbe_refl (g : Game.t) : noBossEnters g g.
Proof.
  split.
  - exists []. rewrite app_nil_r. split; [reflexivity | intros []].
  - intros id H. now left.
Qed.

Lemma types_length (g : Game.t) : length (types g) = length (Game.store g).
Proof. apply length_map. Qed.

Lemma nbe_length (g g' : Game.t) :
  noBossEnters g g' -> (length (Game.store g) <= length (Game.store g'))%nat.
Proof.
  intros [(tys & Ht & _) _]. rewrite <- !types_length, Ht, length_app. lia.
Qed.

Lemma nbe_trans (g1 g2 g3 : Game.t) :
  noBossEnters g1 g2 -> noBossEnters g2 g3 -> noBossEnters g1 g3.
Proof.
  intros H12 H23.
  pose proof (nbe_length _ _ H12) as L12.
  pose proof (nbe_length _ _ H23) as L23.
  destruct H12 as [(t1 & E1 & B1) R1], H23 as [(t2 & E2 & B2) R2].
  split.
  - exists (t1 ++ t2). rewrite E2, E1, app_assoc. split; [reflexivity|].
    rewrite in_app_iff. tauto.
  - intros id H3. destruct (R2 id H3) as [H2|H2]; [|right; lia].
    destruct (R1 id H2) as [H1|H1]; [now left | right; lia].
Qed.

Lemma nbe_iter (n : nat) (f : Game.t -> Game.t) :
  (forall g, noBossEnters g (f g)) ->
  forall g, noBossEnters g (Nat.iter n f g).
Proof.
  intros Hf g. induction n as [|n IH]; simpl.
  - apply nbe_refl.
  - eapply nbe_trans; [apply IH | apply Hf].
Qed.

Lemma nbe_fold {A : Type} (f : Game.t -> A -> Game.t) (l : list A) :
  (forall g a, noBossEnters g (f g a)) ->
  forall g, noBossEnters g (fold_left f l g).
Proof.
  intros Hf. induction l as [|a l IH]; intros g; simpl.
  - apply nbe_refl.
  - eapply nbe_trans; [apply Hf | apply IH].
Qed.

(** An operation that leaves the store alone and adds no reference. *)
Lemma nbe_same (g g' : Game.t) :
  Game.store g' = Game.store g ->
  (forall id, In id (Game.enemies g') -> In id (Game.enemies g)) ->
  noBossEnters g g'.
Proof.
  intros Hs He. split.
  - exists []. unfold types. rewrite Hs, app_nil_r.
    split; [reflexivity | intros []].
  - intros id H. left. now apply He.
Qed.

Ltac nbe_simple := apply nbe_same; [reflexivity | intros ? ?; assumption].

Lemma nbe_killEnemy (e : Enemy.t) (g : Game.t) :
  noBossEnters g (Game.killEnemy e g).
Proof. unfold Game.killEnemy. destruct (Enemy.type e); nbe_simple. Qed.

Lemma nbe_applyChestReward (r : RewardId) (g : Game.t) :
  noBossEnters g (Game.applyChestReward r g).
Proof. destruct r; nbe_simple. Qed.

Lemma nbe_applySkill (s : SkillId) (g : Game.t) :
  noBossEnters g (Game.applySkill s g).
Proof. destruct s; nbe_simple. Qed.

Lemma nbe_set_player (p : Player.t) (g : Game.t) :
  noBossEnters g (Game.set_player p g).
Proof. nbe_simple. Qed.

Lemma map_type_insert (s : list Enemy.t) :
  forall (id : nat) (e e' : Enemy.t),
    s !! id = Some e -> Enemy.type e' = Enemy.type e ->
    List.map Enemy.type (<[id := e']> s) = List.map Enemy.type s.
Proof.
  induction s as [|a s IH]; intros id e e' Hl Ht.
  - discriminate.
  - destruct id as [|id]; simpl in *.
    + injection Hl as ->. now rewrite Ht.
    + f_equal. exact (IH id e e' Hl Ht).
Qed.

Lemma nbe_putEnemy (id : nat) (e e' : Enemy.t) (g : Game.t) :
  Game.store g !! id = Some e ->
  Enemy.type e' = Enemy.type e ->
  noBossEnters g (Game.putEnemy id e' g).
Proof.
  intros Hl Ht. split.
  - exists []. unfold types.
    change (Game.store (Game.putEnemy id e' g))
      with (<[id := e']> (Game.store g)).
    rewrite app_nil_r.
    split; [apply (map_type_insert _ id e e' Hl Ht) | intros []].
  - intros i H. now left.
Qed.

Lemma nbe_pushEnemy (x y : R) (ty : EnemyType) (g : Game.t) :
  ty <> boss -> noBossEnters g (Game.pushEnemy (Enemy.new x y ty) g).
Proof.
  intros Hty. split.
  - exists [ty]. unfold types. cbn. rewrite List.map_app. cbn.
    split; [reflexivity|]. intros [H|[]]. congruence.
  - cbn. intros id H. apply in_app_iff in H as [H|[<-|[]]]; [now left|].
    right. rewrite length_app. cbn. lia.
Qed.

Lemma nbe_weaponStep (id : nat) (g : Game.t) (wp : Player.WeaponPos) :
  noBossEnters g (Game.weaponStep id g wp).
Proof.
  unfold Game.weaponStep.
  destruct (Game.store g !! id) as [e|] eqn:Hl; [|apply nbe_refl].
  destruct (Utils.circleCollision _ _ _ _ _ _); [|apply nbe_refl].
  set (e' := Enemy.takeDamage _ e).
  assert (H : noBossEnters g (Game.putEnemy id e' g)).
  { eapply nbe_putEnemy; eauto using takeDamage_type. }
  destruct (Enemy.isDead e'); trivial.
  eapply nbe_trans; [exact H | apply nbe_killEnemy].
Qed.

Lemma nbe_enemyStep (dt : R) (g : Game.t) (id : nat) :
  noBossEnters g (Game.enemyStep dt g id).
Proof.
  unfold Game.enemyStep.
  destruct (Game.store g !! id) as [e|] eqn:Hl; [|apply nbe_refl].
  set (e1 := Enemy.update dt _ _ e).
  set (g1 := Game.putEnemy id e1 g).
  assert (H1 : noBossEnters g g1).
  { eapply nbe_putEnemy; eauto using update_type. }
  set (g2 := if Utils.circleCollision _ _ _ _ _ _ then _ else g1).
  assert (H2 : noBossEnters g1 g2).
  { subst g2. destruct (Utils.circleCollision _ _ _ _ _ _);
      [apply nbe_set_player | apply nbe_refl]. }
  set (g3 := fold_left _ _ g2).
  assert (H3 : noBossEnters g2 g3) by (apply nbe_fold, nbe_weaponStep).
  assert (H : noBossEnters g g3) by eauto using nbe_trans.
  destruct (Game.store g3 !! id) as [e3|] eqn:Hl3; trivial.
  destruct (Enemy.canAttack e3); trivial.
  set (g4 := Game.putEnemy id (Enemy.performAttack e3) g3).
  assert (H4 : noBossEnters g3 g4).
  { apply (nbe_putEnemy id e3); [exact Hl3 | reflexivity]. }
  set (g5 := Game.createBossAttackWarning _ _ g4).
  assert (H5 : noBossEnters g4 g5) by nbe_simple.
  assert (H6 : noBossEnters g5
                 (Game.set_timers (Game.timers g5 ++ [BossAttackHit id]) g5))
    by nbe_simple.
  eauto using nbe_trans.
Qed.

Lemma nbe_updateEnemies (dt : R) (g : Game.t) :
  noBossEnters g (Game.updateEnemies dt g).
Proof.
  unfold Game.updateEnemies.
  set (g1 := fold_left _ _ g).
  assert (H1 : noBossEnters g g1) by (apply nbe_fold, nbe_enemyStep).
  clearbody g1. apply (nbe_trans _ g1); [exact H1|].
  apply nbe_same; [reflexivity|].
  cbn. intros id H. apply List.filter_In in H. tauto.
Qed.

Lemma nbe_updatePlayer (dt : R) (g : Game.t) :
  noBossEnters g (Game.updatePlayer dt g).
Proof.
  unfold Game.updatePlayer. cbn [Game.player Game.set_player].
  destruct (Player.checkLevelUp _) as [[|] p1]; nbe_simple.
Qed.

Lemma nbe_updateExpOrbs (dt : R) (force : bool) (g : Game.t) :
  noBossEnters g (Game.updateExpOrbs dt force g).
Proof.
  unfold Game.updateExpOrbs.
  destruct (Game.orbLoop dt force (Game.expOrbs g) (Game.player g))
    as [orbs p]. nbe_simple.
Qed.

Lemma nbe_chestLoop (dt : R) (cs : list Chest.t) :
  forall g : Game.t, noBossEnters g (Game.chestLoop dt cs g).2.
Proof.
  induction cs as [|c cs IH]; intros g; cbn; [apply nbe_refl|].
  destruct (Chest.update dt (Game.player g) _ c) as [reward c1].
  set (g1 := if _ && _ then _ else g).
  assert (H1 : noBossEnters g g1).
  { subst g1. destruct (_ && _); [nbe_simple | apply nbe_refl]. }
  set (g2 := match reward with Some _ => _ | None => g1 end).
  assert (H2 : noBossEnters g1 g2).
  { subst g2. destruct reward;
      [apply nbe_applyChestReward | apply nbe_refl]. }
  specialize (IH g2).
  destruct (Game.chestLoop dt cs g2) as [rest g3]. cbn in *.
  eauto using nbe_trans.
Qed.

Lemma nbe_updateChests (dt : R) (g : Game.t) :
  noBossEnters g (Game.updateChests dt g).
Proof.
  unfold Game.updateChests.
  pose proof (nbe_chestLoop dt (Game.chests g) g) as H.
  destruct (Game.chestLoop dt (Game.chests g) g) as [cs g1]. cbn in H.
  apply (nbe_trans _ g1); [exact H | nbe_simple].
Qed.

Lemma nbe_updateParticles (dt : R) (g : Game.t) :
  noBossEnters g (Game.updateParticles dt g).
Proof. nbe_simple. Qed.

Lemma nbe_spawnEnemy (ty : EnemyType) (g : Game.t) :
  ty <> boss -> noBossEnters g (Game.spawnEnemy ty g).
Proof.
  intros Hty. unfold Game.spawnEnemy, Game.randomFloat, Game.random.
  set (g1 := Game.set_rndi _ g).
  apply (nbe_trans _ g1); [nbe_simple | now apply nbe_pushEnemy].
Qed.

Lemma nbe_spawnEnemies (dt : R) (g : Game.t) :
  noBossEnters g (Game.spawnEnemies dt g).
Proof.
  unfold Game.spawnEnemies.
  set (g1 := Game.set_enemySpawnTimer _ g).
  assert (H1 : noBossEnters g g1) by nbe_simple.
  set (g2 := if Rleb 10 _ then _ else g1).
  assert (H2 : noBossEnters g1 g2).
  { subst g2. destruct (Rleb 10 _); [|apply nbe_refl].
    set (g2 := Nat.iter _ _ g1).
    assert (H2 : noBossEnters g1 g2).
    { apply nbe_iter. intros g0. now apply nbe_spawnEnemy. }
    clearbody g2. apply (nbe_trans _ g2); [exact H2 | nbe_simple]. }
  assert (H : noBossEnters g g2) by eauto using nbe_trans.
  destruct (Rleb 30 (Game.survivalTime g2)); trivial.
  set (g3 := Game.set_eliteSpawnTimer _ g2).
  assert (H3 : noBossEnters g2 g3) by nbe_simple.
  destruct (Rleb 30 (Game.eliteSpawnTimer g3)); [|eauto using nbe_trans].
  set (g4 := Game.spawnEnemy elite g3).
  assert (H4 : noBossEnters g3 g4) by now apply nbe_spawnEnemy.
  clearbody g4 g3 g2 g1.
  assert (H5 : noBossEnters g4 (Game.set_eliteSpawnTimer 0 g4)) by nbe_simple.
  eauto using nbe_trans.
Qed.

Lemma nbe_spawnChestLoop (left : nat) :
  forall g : Game.t, noBossEnters g (Game.spawnChestLoop left g).
Proof.
  induction left as [|left IH]; intros g; cbn; [apply nbe_refl|].
  destruct (negb _); [nbe_simple|].
  set (g1 := Game.set_rndi _ _).
  apply (nbe_trans _ g1); [nbe_simple | apply IH].
Qed.

Lemma nbe_updateSpawns (dt : R) (g : Game.t) :
  noBossEnters g (Game.updateSpawns dt g).
Proof.
  unfold Game.updateSpawns.
  pose proof (nbe_spawnEnemies dt g) as H0.
  set (g0 := Game.spawnEnemies dt g) in *. clearbody g0.
  set (g1 := Game.set_chestSpawnTimer _ _).
  assert (H1 : noBossEnters g g1).
  { apply (nbe_trans _ g0); [exact H0 | nbe_simple]. }
  clearbody g1.
  destruct (Rleb 45 _); trivial.
  pose proof (nbe_spawnChestLoop 10 g1) as H2.
  unfold Game.spawnChest. set (g2 := Game.spawnChestLoop 10 g1) in *.
  clearbody g2.
  assert (H3 : noBossEnters g2 (Game.set_chestSpawnTimer 0 g2)) by nbe_simple.
  eauto using nbe_trans.
Qed.

(** The end of an update step, after the boss check: nothing is created,
    nothing enters [this.enemies], and [bossAlive] stays as it is. *)
Lemma update_tail (g : Game.t) :
  let g' := Game.updateScore (Game.checkDeath g) in
  Game.store g' = Game.store g /\ Game.enemies g' = Game.enemies g
  /\ Game.bossAlive g' = Game.bossAlive g.
Proof.
  unfold Game.checkDeath. destruct (Rleb _ 0); cbn; tauto.
Qed.

(** The blocks of an update step that come before the boss check. *)
Lemma nbe_before_checkBoss (dt : R) (force : bool) (g : Game.t) :
  noBossEnters g
    (Game.updateSpawns dt
       (Game.updateParticles dt
          (Game.updateChests dt
             (Game.updateExpOrbs dt force
                (Game.updateEnemies dt (Game.updatePlayer dt g)))))).
Proof.
  eapply nbe_trans; [apply nbe_updatePlayer|].
  eapply nbe_trans; [apply nbe_updateEnemies|].
  eapply nbe_trans; [apply nbe_updateExpOrbs|].
  eapply nbe_trans; [apply nbe_updateChests|].
  eapply nbe_trans; [apply nbe_updateParticles|].
  apply nbe_updateSpawns.
Qed.

Lemma map_type_lookup (s : list Enemy.t) :
  forall id : nat,
    List.map Enemy.type s !! id = option_map Enemy.type (s !! id).
Proof.
  induction s as [|a s IH]; intros [|id]; simpl; trivial.
Qed.

(** Across steps in which no boss enters, an object created since is no
    boss and an older object is a boss exactly when it was one. *)
Lemma nbe_new_not_boss (g g' : Game.t) :
  noBossEnters g g' ->
  forall id : nat,
    (length (Game.store g) <= id)%nat -> isBossRef g' id = false.
Proof.
  intros [(tys & Ht & Hb) _] id Hid. unfold isBossRef.
  destruct (Game.store g' !! id) as [e'|] eqn:Hl'; [|reflexivity].
  assert (Hty : types g' !! id = Some (Enemy.type e')).
  { unfold types. now rewrite map_type_lookup, Hl'. }
  rewrite Ht, lookup_app_r in Hty by (rewrite types_length; exact Hid).
  apply list_elem_of_lookup_2, list_elem_of_In in Hty.
  unfold isBoss. destruct (Enemy.type e'); trivial. contradiction.
Qed.

Lemma nbe_old_boss (g g' : Game.t) :
  noBossEnters g g' ->
  forall id : nat,
    (id < length (Game.store g))%nat -> isBossRef g' id = isBossRef g id.
Proof.
  intros [(tys & Ht & _) _] id Hid.
  assert (Hty : types g' !! id = types g !! id).
  { rewrite Ht. apply lookup_app_l. rewrite types_length. exact Hid. }
  unfold types in Hty. rewrite !map_type_lookup in Hty.
  unfold isBossRef, isBoss.
  destruct (Game.store g' !! id), (Game.store g !! id); cbn in Hty;
    congruence.
Qed.

(** A boss that [this.enemies] refers to after such steps was referred to
    before them. *)
Lemma nbe_bossRefs (g g' : Game.t) :
  noBossEnters g g' ->
  forall id : nat,
    In id (Game.enemies g') -> isBossRef g' id = true ->
    In id (Game.enemies g) /\ isBossRef g id = true.
Proof.
  intros H id Hin Hboss.
  destruct (Nat.lt_ge_cases id (length (Game.store g))) as [Hid|Hid].
  - rewrite (nbe_old_boss g g' H id Hid) in Hboss. split; trivial.
    destruct H as [_ Hr]. destruct (Hr id Hin) as [?|?]; [trivial | lia].
  - rewrite (nbe_new_not_boss g g' H id Hid) in Hboss. discriminate.
Qed.

(** An update step is the blocks before the boss check, the boss check and
    the tail; the boss check reads the flag as the step found it and the
    condition as the step leaves it. *)
Lemma update_checkBoss (dt : R) (g : Game.t) :
  let g0 := Game.set_survivalTime (Game.survivalTime g + dt) g in
  let force := held (Game.keys g0) " " || held (Game.keys g0) "space" in
  let g6 := Game.updateSpawns dt
              (Game.updateParticles dt
                 (Game.updateChests dt
                    (Game.updateExpOrbs dt force
                       (Game.updateEnemies dt (Game.updatePlayer dt g0))))) in
  Game.update dt g = Game.updateScore (Game.checkDeath (Game.checkBoss g6))
  /\ Game.bossSpawned g6 = Game.bossSpawned g
  /\ Game.bossDue (Game.update dt g) = Game.bossDue g6
  /\ noBossEnters g g6.
Proof.
  intros g0 force g6.
  assert (E : Game.update dt g
              = Game.updateScore (Game.checkDeath (Game.checkBoss g6)))
    by reflexivity.
  split; [exact E|]. rewrite E. clear E.
  assert (N : noBossEnters g g6).
  { apply (nbe_trans _ g0); [nbe_simple | apply nbe_before_checkBoss]. }
  subst g6.
  pose proof (updatePlayer_effect dt g0) as (P1 & P2 & P3 & P4 & P5).
  set (g1 := Game.updatePlayer dt g0) in *. clearbody g1.
  pose proof (keeps_updateEnemies dt g1) as K2.
  set (g2 := Game.updateEnemies dt g1) in *. clearbody g2.
  pose proof (keeps_updateExpOrbs dt force g2) as K3.
  set (g3 := Game.updateExpOrbs dt force g2) in *. clearbody g3.
  pose proof (keeps_updateChests dt g3) as K4.
  set (g4 := Game.updateChests dt g3) in *. clearbody g4.
  pose proof (keeps_updateParticles dt g4) as K5.
  set (g5 := Game.updateParticles dt g4) in *. clearbody g5.
  pose proof (keeps_updateSpawns dt g5) as K6.
  set (g6 := Game.updateSpawns dt g5) in *. clearbody g6.
  assert (K : keeps g1 g6) by eauto using keeps_trans.
  destruct K as (_ & _ & _ & K4' & _).
  pose proof (checkBoss_effect g6) as (_ & B2 & B3 & _).
  set (g7 := Game.checkBoss g6) in *. clearbody g7.
  pose proof (keeps_checkDeath g7) as K7.
  set (g8 := Game.checkDeath g7) in *. clearbody g8.
  pose proof (keeps_updateScore g8) as K8.
  destruct (keeps_trans _ _ _ K7 K8) as (_ & F2 & F3 & _).
  split; [|split; [|exact N]].
  - rewrite K4', P4. reflexivity.
  - unfold Game.bossDue. now rewrite F2, F3, B2, B3.
Qed.

(** The boss check of an update step puts a boss into play when the flag
    is unset and the condition holds, and otherwise no boss enters. *)
Lemma update_boss_refs (dt : R) (g : Game.t) :
  if negb (Game.bossSpawned g) && Game.bossDue (Game.update dt g)
  then bossEnters g (Game.update dt g)
  else noBossEnters g (Game.update dt g).
Proof.
  destruct (update_checkBoss dt g) as (E & S & D & N).
  cbv zeta in *.
  set (g6 := Game.updateSpawns dt _) in *. clearbody g6.
  rewrite D, <- S, E.
  destruct (update_tail (Game.checkBoss g6)) as (T1 & T2 & T3).
  cbv zeta in *.
  set (g9 := Game.updateScore (Game.checkDeath (Game.checkBoss g6))) in *.
  clearbody g9.
  unfold Game.checkBoss in *.
  destruct (negb (Game.bossSpawned g6) && Game.bossDue g6).
  - unfold Game.spawnBoss, Game.randomFloat, Game.random, Game.pushEnemy
      in T1, T2, T3.
    cbn in T1, T2, T3.
    exists (Game.enemies g6), (Game.store g6).
    eexists. eexists.
    split; [exact T2|]. split; [exact T1|]. split; [exact T3|].
    intros id Hin Hboss.
    destruct N as [N1 Nr]. destruct (Nr id Hin) as [H|H]; trivial.
    assert (Hb : isBossRef g6 id = true).
    { unfold isBossRef in *. rewrite T1, lookup_app_l in Hboss by lia.
      exact Hboss. }
    rewrite (nbe_new_not_boss g g6 (conj N1 Nr) id) in Hb by lia.
    discriminate.
  - apply (nbe_trans _ g6); trivial.
    apply nbe_same; [exact T1 | rewrite T2; trivial].
Qed.

Lemma nbe_fire (n : nat) (g : Game.t) : noBossEnters g (Game.fire n g).
Proof.
  unfold Game.fire. destruct (Game.timers g !! n) as [tm|]; [|apply nbe_refl].
  set (g1 := Game.set_timers _ g).
  assert (H1 : noBossEnters g g1) by nbe_simple. clearbody g1.
  apply (nbe_trans _ g1); trivial.
  destruct tm as [id|]; cbn.
  - destruct (Game.store g1 !! id) as [e|]; [|apply nbe_refl].
    destruct (Rltb _ 200); [apply nbe_set_player | apply nbe_refl].
  - nbe_simple.
Qed.

Lemma nbe_selectSkill (s : SkillId) (g : Game.t) :
  noBossEnters g (Game.selectSkill s g).
Proof.
  unfold Game.selectSkill.
  pose proof (nbe_applySkill s g) as H.
  set (g1 := Game.applySkill s g) in *. clearbody g1.
  apply (nbe_trans _ g1); [exact H | nbe_simple].
Qed.

(** One event of a session: a boss enters play on the update step that
    finds the flag unset and the condition true, and on no other event. *)
Lemma step_boss_refs (g : Game.t) (ev : Event) :
  ev <> Restart ->
  if negb (Game.bossSpawned g) && dueStep g ev
  then bossEnters g (step g ev)
  else noBossEnters g (step g ev).
Proof.
  intros Hev.
  destruct ev as [el| | | | | | | |]; try congruence;
    cbn [dueStep]; rewrite ?andb_false_r; cbn [step].
  - unfold Game.gameLoop.
    destruct (GameState_eqb (Game.state g) playing); cbn [andb].
    + apply update_boss_refs.
    + rewrite andb_false_r. apply nbe_refl.
  - nbe_simple.
  - nbe_simple.
  - nbe_simple.
  - destruct (Game.mousePressed g); nbe_simple.
  - nbe_simple.
  - apply nbe_selectSkill.
  - apply nbe_fire.
Qed.

(** C7.  Within a session, started with the boss flag unset, the step [ev]
    that follows the events [pre] spawns a boss exactly when it is an
    update step at whose boss check [level >= 10 || survivalTime >= 120]
    holds and no earlier update step was such a step.  On that step one
    boss object is constructed and the reference to it is pushed to
    [this.enemies]; on every other step no boss is created and no
    reference that enters [this.enemies] leads to a boss.  So the number
    of bosses created is 1 from the first such step on and 0 before.  An
    update step is a frame that finds the game in the playing state, and
    the condition is the one on the level and the clock of that step. *)
Theorem boss_spawned_once (g0 : Game.t) (pre : list Event) (ev : Event) :
  Game.bossSpawned g0 = false ->
  Forall (fun ev => ev <> Restart) (pre ++ [ev]) ->
  bossCount (run g0 (pre ++ [ev]))
  = (bossCount (run g0 pre)
     + if negb (dueSeen g0 pre) && dueStep (run g0 pre) ev then 1 else 0)%nat
  /\ bossCount (run g0 (pre ++ [ev]))
     = (bossCount g0 + if dueSeen g0 (pre ++ [ev]) then 1 else 0)%nat
  /\ Game.bossSpawned (run g0 (pre ++ [ev])) = dueSeen g0 (pre ++ [ev])
  /\ dueStep (run g0 pre) ev
     = match ev with
       | Frame el =>
           GameState_eqb (Game.state (run g0 pre)) playing
           && dueAhead (run g0 pre) el
       | _ => false
       end
  /\ (if negb (dueSeen g0 pre) && dueStep (run g0 pre) ev
      then bossEnters (run g0 pre) (run g0 (pre ++ [ev]))
      else noBossEnters (run g0 pre) (run g0 (pre ++ [ev]))).
Proof.
  intros H0 HF.
  assert (HD : dueStep (run g0 pre) ev
               = match ev with
                 | Frame el =>
                     GameState_eqb (Game.state (run g0 pre)) playing
                     && dueAhead (run g0 pre) el
                 | _ => false
                 end)
    by (destruct ev; [apply dueStep_frame | reflexivity ..]).
  apply Forall_app in HF as [Hpre Hev].
  inversion Hev as [|? ? Hev' _]; subst.
  destruct (run_boss pre g0 Hpre) as [P1 P2].
  rewrite H0 in P1, P2. cbn [negb andb orb] in P1, P2.
  pose proof (step_boss_refs (run g0 pre) ev Hev') as HR.
  rewrite P1 in HR.
  rewrite run_snoc, dueSeen_snoc.
  destruct (step_boss (run g0 pre) ev Hev') as [S1 S2].
  rewrite S1, S2, P1, P2.
  split; [|split; [|split; [|split; [exact HD | exact HR]]]];
    destruct (dueSeen g0 pre), (dueStep (run g0 pre) ev); cbn;
    reflexivity || lia.
Qed.

Lemma dueStep_by_time (g : Game.t) (el : R) :
  Game.state g = playing ->
  120 <= Game.survivalTime g + Rmin el (1 / 10) ->
  dueStep g (Frame el) = true.
Proof.
  intros Hs Ht. cbn [dueStep step]. unfold Game.gameLoop. rewrite Hs.
  cbn [GameState_eqb andb]. unfold Game.bossDue.
  destruct (update_effect (Rmin el (1 / 10)) g) as (_ & _ & -> & _).
  rewrite Rleb_true by exact Ht. apply orb_true_r.
Qed.

Lemma boss_spawned_once_witness :
  let g0 := Game.set_survivalTime (11995 / 100) (Game.new (fun _ => 0)) in
  bossCount g0 = 0%nat
  /\ bossCount (run g0 [Frame (1 / 10)]) = 1%nat
  /\ bossCount (run g0 [Frame (1 / 10); Frame (1 / 10)]) = 1%nat
  /\ bossEnters g0 (run g0 [Frame (1 / 10)])
  /\ noBossEnters (run g0 [Frame (1 / 10)])
       (run g0 [Frame (1 / 10); Frame (1 / 10)]).
Proof.
  intros g0.
  assert (H0 : Game.bossSpawned g0 = false) by reflexivity.
  assert (HF1 : Forall (fun ev => ev <> Restart) ([] ++ [Frame (1 / 10)]))
    by (repeat constructor; discriminate).
  assert (HF : Forall (fun ev => ev <> Restart)
                 ([Frame (1 / 10)] ++ [Frame (1 / 10)]))
    by (repeat constructor; discriminate).
  assert (HD : dueStep g0 (Frame (1 / 10)) = true).
  { apply dueStep_by_time; [reflexivity|].
    cbn. rewrite Rmin_left; lra. }
  destruct (boss_spawned_once g0 [] (Frame (1 / 10)) H0 HF1)
    as (_ & _ & _ & _ & E1).
  destruct (boss_spawned_once g0 [Frame (1 / 10)] (Frame (1 / 10)) H0 HF)
    as (T1 & T2 & _ & _ & E2).
  change (run g0 []) with g0 in E1.
  cbn [app dueSeen] in E1, E2, T1, T2. rewrite HD in E1, E2, T1, T2.
  cbn [orb negb andb] in E1, E2, T1, T2.
  assert (HC : bossCount g0 = 0%nat) by reflexivity.
  split; [exact HC|]. split; [lia|]. split; [lia|].
  split; [exact E1 | exact E2].
Defined.

(** * Concrete frames *)

(** ** Geometry of the concrete scenes *)

(** A weapon on the orbit of radius 80 about the origin against an enemy
    on the positive x axis. *)
Lemma weapon_far (a bx r : R) :
  0 <= r -> 88 + r <= bx ->
  Utils.circleCollision (0 + cos a * 80) (0 + sin a * 80) 8 bx 0 r = false.
Proof.
  intros Hr Hb. unfold Utils.circleCollision, Utils.distance.
  apply Rltb_false, sqrt_ge_sq; [lra|].
  pose proof (cos_sin_sq a) as H. pose proof (COS_bound a) as [_ Hc].
  nra.
Qed.

Lemma weapon_hit_70 (a : R) :
  81 / 100 < cos a ->
  Utils.circleCollision (0 + cos a * 80) (0 + sin a * 80) 8 70 0 40 = true.
Proof.
  intros Hc. unfold Utils.circleCollision, Utils.distance.
  pose proof (cos_sin_sq a) as H.
  apply Rltb_true, sqrt_lt_sq; nra.
Qed.

Lemma weapon_miss_70 (a : R) :
  cos a <= 0 ->
  Utils.circleCollision (0 + cos a * 80) (0 + sin a * 80) 8 70 0 40 = false.
Proof.
  intros Hc. unfold Utils.circleCollision, Utils.distance.
  pose proof (cos_sin_sq a) as H.
  apply Rltb_false, sqrt_ge_sq; nra.
Qed.

Lemma sqrt3_gt : 162 / 100 < sqrt 3.
Proof.
  rewrite <- (sqrt_square (162 / 100)) by lra. apply sqrt_lt_1_alt. lra.
Qed.

Lemma cos_330 : cos ((330 + INR 0 * (360 / INR 6)) * PI / 180) = sqrt 3 / 2.
Proof.
  replace ((330 + INR 0 * (360 / INR 6)) * PI / 180)
    with (- (PI / 6) + 2 * INR 1 * PI) by (simpl; field).
  rewrite cos_period, cos_neg. apply cos_PI6.
Qed.

Lemma cos_390 : cos ((330 + INR 1 * (360 / INR 6)) * PI / 180) = sqrt 3 / 2.
Proof.
  replace ((330 + INR 1 * (360 / INR 6)) * PI / 180)
    with (PI / 6 + 2 * INR 1 * PI) by (simpl; field).
  rewrite cos_period. apply cos_PI6.
Qed.

Lemma cos_back (i : nat) :
  (2 <= i <= 5)%nat ->
  cos ((330 + INR i * (360 / INR 6)) * PI / 180) <= 0.
Proof.
  intros Hi.
  replace ((330 + INR i * (360 / INR 6)) * PI / 180)
    with ((INR i * (PI / 3) - PI / 6) + 2 * INR 1 * PI) by (simpl; field).
  rewrite cos_period.
  assert (H2 : INR 2 <= INR i) by (apply le_INR; lia).
  assert (H5 : INR i <= INR 5) by (apply le_INR; lia).
  simpl in H2, H5.
  pose proof PI_RGT_0. apply cos_le_0; nra.
Qed.

Lemma update_hero (dt : R) (n : nat) (angle : R) :
  angle + 120 * dt < 360 ->
  Player.update dt ∅ 500 (hero n angle) = hero n (angle + 120 * dt).
Proof.
  intros Ha. unfold Player.update. rewrite !held_empty.
  cbn [hero Player.new orb fst snd Player.set_currentAngle
       Player.set_weaponCount Player.x Player.y Player.radius Player.hp
       Player.maxHp Player.speed Player.level Player.exp Player.expToLevel
       Player.weaponCount Player.weaponDamage Player.weaponRadius
       Player.rotateSpeed Player.currentAngle Player.defenseRate Player.vx
       Player.vy Player.targetX Player.targetY Player.autoCollectBuff
       Player.speedBuff Player.invincible Player.weaponType].
  replace (sqrt (0 * 0 + 0 * 0)) with 0 by (rewrite sqrt_sqr_sum_0; lra).
  rewrite (Rltb_false 0 0) by lra.
  replace (0 + 0 * (100 * 1) * dt) with 0 by ring.
  replace (sqrt (0 * 0 + 0 * 0)) with 0 by (rewrite sqrt_sqr_sum_0; lra).
  rewrite (Rltb_false 500) by lra.
  rewrite (Rleb_false 360) by lra.
  reflexivity.
Qed.

Lemma updatePlayer_hero (dt : R) (n : nat) (angle : R) (g : Game.t) :
  Game.keys g = ∅ -> Game.arenaRadius g = 500 ->
  Game.player g = hero n angle ->
  angle + 120 * dt < 360 ->
  Game.updatePlayer dt g = Game.set_player (hero n (angle + 120 * dt)) g.
Proof.
  intros Hk Har Hp Ha. unfold Game.updatePlayer.
  cbn [Game.player Game.set_player Game.keys Game.arenaRadius].
  rewrite Hk, Har, Hp, update_hero by exact Ha.
  unfold Player.checkLevelUp. cbn [hero Player.new Player.set_currentAngle
    Player.set_weaponCount Player.exp Player.expToLevel].
  rewrite (Rleb_false 100 0) by lra.
  reflexivity.
Qed.

(** Normal forms of enemy records. *)
Ltac enemy_norm :=
  cbv [Enemy.new Enemy.configs Enemy.set_x Enemy.set_y Enemy.set_type
       Enemy.set_hp Enemy.set_isDead Enemy.set_slowEffect
       Enemy.set_attackCooldown Enemy.set_attackInterval
       Enemy.x Enemy.y Enemy.type Enemy.hp Enemy.maxHp Enemy.speed
       Enemy.damage Enemy.exp Enemy.radius Enemy.color Enemy.isDead
       Enemy.slowEffect Enemy.attackCooldown Enemy.attackInterval
       Enemy.c_hp Enemy.c_speed Enemy.c_damage Enemy.c_exp Enemy.c_radius
       Enemy.c_color].

Lemma update_bossAt (dt bx hp cd : R) :
  0 < bx ->
  Enemy.update dt 0 0 (bossAt bx hp cd false)
  = bossAt (bx - 120 * dt) hp (cd - dt) false.
Proof.
  intros Hb. unfold Enemy.update, Enemy.speedMult, bossAt. enemy_norm.
  replace (sqrt ((0 - bx) * (0 - bx) + (0 - 0) * (0 - 0))) with bx
    by (symmetry; apply sqrt_lem_1; nra).
  rewrite !(Rltb_false 0 0), !(Rltb_true 0 bx) by lra.
  f_equal; try (field; lra); try lra.
Qed.

Lemma weaponStep_miss (id : nat) (g : Game.t) (wp : Player.WeaponPos)
      (e : Enemy.t) :
  Game.store g !! id = Some e ->
  Utils.circleCollision (Player.wx wp) (Player.wy wp) 8
    (Enemy.x e) (Enemy.y e) (Enemy.radius e) = false ->
  Game.weaponStep id g wp = g.
Proof. intros Hl Hc. unfold Game.weaponStep. now rewrite Hl, Hc. Qed.

Lemma weapons_miss (id : nat) (e : Enemy.t) (wps : list Player.WeaponPos) :
  forall g : Game.t,
    Game.store g !! id = Some e ->
    Forall (fun wp =>
              Utils.circleCollision (Player.wx wp) (Player.wy wp) 8
                (Enemy.x e) (Enemy.y e) (Enemy.radius e) = false) wps ->
    fold_left (Game.weaponStep id) wps g = g.
Proof.
  induction wps as [|wp wps IH]; intros g Hl HF; simpl; trivial.
  inversion HF as [|? ? Hc Hrest]; subst.
  rewrite (weaponStep_miss id g wp e Hl Hc). now apply IH.
Qed.

Lemma hero_weapons_far (n : nat) (a bx hp cd : R) (dead : bool) :
  128 <= bx ->
  Forall (fun wp =>
            Utils.circleCollision (Player.wx wp) (Player.wy wp) 8
              (Enemy.x (bossAt bx hp cd dead)) (Enemy.y (bossAt bx hp cd dead))
              (Enemy.radius (bossAt bx hp cd dead)) = false)
    (Player.getWeaponPositions (hero n a)).
Proof.
  intros Hb. unfold Player.getWeaponPositions. apply Forall_map.
  apply Forall_forall. intros i _. cbn. apply weapon_far; lra.
Qed.

(** The enemy block of a frame in which the boss is out of reach of the
    weapons and of the player and does not attack. *)
Lemma enemyStep_far (dt bx hp cd : R) (n : nat) (a : R) (g : Game.t) :
  Game.store g = [bossAt bx hp cd false] ->
  Game.player g = hero n a ->
  0 < bx -> 128 <= bx - 120 * dt -> 0 < cd - dt ->
  Game.enemyStep dt g 0
  = Game.set_store [bossAt (bx - 120 * dt) hp (cd - dt) false] g.
Proof.
  intros Hs Hp Hb Hfar Hcd. unfold Game.enemyStep.
  rewrite Hs, Hp. cbn [lookup list_lookup].
  replace (Player.x (hero n a)) with 0 by reflexivity.
  replace (Player.y (hero n a)) with 0 by reflexivity.
  rewrite update_bossAt by exact Hb.
  set (e1 := bossAt _ hp _ false).
  set (g1 := Game.putEnemy 0 e1 g).
  assert (Hg1 : g1 = Game.set_store [e1] g).
  { unfold g1, Game.putEnemy. now rewrite Hs. }
  assert (Hc : Utils.circleCollision (Enemy.x e1) (Enemy.y e1)
                 (Enemy.radius e1) (Player.x (Game.player g1))
                 (Player.y (Game.player g1))
                 (Player.radius (Game.player g1)) = false).
  { rewrite Hg1. cbn [Game.player Game.set_store]. rewrite Hp.
    unfold Utils.circleCollision, Utils.distance. cbn.
    apply Rltb_false, sqrt_ge_sq; nra. }
  rewrite Hc.
  assert (Hl1 : Game.store g1 !! 0%nat = Some e1) by now rewrite Hg1.
  rewrite (weapons_miss 0 e1 _ g1 Hl1).
  - rewrite Hl1. unfold Enemy.canAttack. cbn.
    rewrite Rleb_false by lra. exact Hg1.
  - rewrite Hg1. cbn [Game.player Game.set_store]. rewrite Hp.
    apply hero_weapons_far. exact Hfar.
Qed.

Ltac game_norm :=
  cbv [Game.set_keys Game.set_mousePressed Game.set_state Game.set_isPaused
       Game.set_player Game.set_enemies Game.set_expOrbs Game.set_chests
       Game.set_particles Game.set_score Game.set_killCount
       Game.set_survivalTime Game.set_enemySpawnTimer
       Game.set_eliteSpawnTimer Game.set_chestSpawnTimer
       Game.set_bossSpawned Game.set_bossAlive Game.set_store
       Game.set_timers Game.set_finalScore Game.set_rndi
       Game.centerX Game.centerY Game.arenaRadius Game.keys
       Game.mousePressed Game.state Game.isPaused Game.player Game.enemies
       Game.expOrbs Game.chests Game.particles Game.score Game.killCount
       Game.survivalTime Game.enemySpawnTimer Game.eliteSpawnTimer
       Game.chestSpawnTimer Game.bossSpawned Game.bossAlive Game.store
       Game.timers Game.finalScore Game.rnd Game.rndi scene].

Lemma enemyStep_attack (dt bx hp cd : R) (n : nat) (a : R) (g : Game.t) :
  Game.store g = [bossAt bx hp cd false] ->
  Game.player g = hero n a ->
  0 < bx -> 128 <= bx - 120 * dt -> cd - dt <= 0 ->
  Game.enemyStep dt g 0
  = Game.set_timers (Game.timers g ++ [BossAttackHit 0])
      (Game.set_particles
         (Game.particles g ++ warningRing (bx - 120 * dt) 0)
         (Game.set_store [bossAt (bx - 120 * dt) hp 5 false] g)).
Proof.
  intros Hs Hp Hb Hfar Hcd. unfold Game.enemyStep.
  rewrite Hs, Hp. cbn [lookup list_lookup].
  replace (Player.x (hero n a)) with 0 by reflexivity.
  replace (Player.y (hero n a)) with 0 by reflexivity.
  rewrite update_bossAt by exact Hb.
  set (e1 := bossAt _ hp _ false).
  set (g1 := Game.putEnemy 0 e1 g).
  assert (Hg1 : g1 = Game.set_store [e1] g).
  { unfold g1, Game.putEnemy. now rewrite Hs. }
  assert (Hc : Utils.circleCollision (Enemy.x e1) (Enemy.y e1)
                 (Enemy.radius e1) (Player.x (Game.player g1))
                 (Player.y (Game.player g1))
                 (Player.radius (Game.player g1)) = false).
  { rewrite Hg1. cbn [Game.player Game.set_store]. rewrite Hp.
    unfold Utils.circleCollision, Utils.distance. cbn.
    apply Rltb_false, sqrt_ge_sq; nra. }
  rewrite Hc.
  assert (Hl1 : Game.store g1 !! 0%nat = Some e1) by now rewrite Hg1.
  rewrite (weapons_miss 0 e1 _ g1 Hl1).
  - rewrite Hl1. unfold Enemy.canAttack. cbn [EnemyType_eqb andb].
    replace (Enemy.type e1) with boss by reflexivity.
    replace (Enemy.attackCooldown e1) with (cd - dt) by reflexivity.
    cbn [EnemyType_eqb andb]. rewrite Rleb_true by lra.
    rewrite Hg1. unfold Game.createBossAttackWarning, Game.putEnemy.
    reflexivity.
  - rewrite Hg1. cbn [Game.player Game.set_store]. rewrite Hp.
    apply hero_weapons_far. exact Hfar.
Qed.


(** ** Blocks of [Game.update] on a quiet field *)

Lemma updateSpawns_idle (dt : R) (g : Game.t) :
  Game.enemySpawnTimer g + dt < 10 ->
  30 <= Game.survivalTime g ->
  Game.eliteSpawnTimer g + dt < 30 ->
  Game.chestSpawnTimer g + dt < 45 ->
  Game.updateSpawns dt g
  = Game.set_chestSpawnTimer (Game.chestSpawnTimer g + dt)
      (Game.set_eliteSpawnTimer (Game.eliteSpawnTimer g + dt)
         (Game.set_enemySpawnTimer (Game.enemySpawnTimer g + dt) g)).
Proof.
  intros H1 H2 H3 H4. unfold Game.updateSpawns, Game.spawnEnemies.
  set (g1 := Game.set_enemySpawnTimer _ g).
  replace (Rleb 10 (Game.enemySpawnTimer g1)) with false
    by (symmetry; apply Rleb_false; exact H1).
  replace (Rleb 30 (Game.survivalTime g1)) with true
    by (symmetry; apply Rleb_true; exact H2).
  set (g2 := Game.set_eliteSpawnTimer _ g1).
  replace (Rleb 30 (Game.eliteSpawnTimer g2)) with false
    by (symmetry; apply Rleb_false; exact H3).
  set (g3 := Game.set_chestSpawnTimer _ g2).
  replace (Rleb 45 (Game.chestSpawnTimer g3)) with false
    by (symmetry; apply Rleb_false; exact H4).
  reflexivity.
Qed.

Lemma checkBoss_spawned (g : Game.t) :
  Game.bossSpawned g = true -> Game.checkBoss g = g.
Proof. intros H. unfold Game.checkBoss. now rewrite H. Qed.

Lemma checkDeath_alive (g : Game.t) :
  0 < Player.hp (Game.player g) -> Game.checkDeath g = g.
Proof. intros H. unfold Game.checkDeath. now rewrite Rleb_false. Qed.


(** The blocks that follow the enemies, on a field without chests, with
    orbs that stay uncollected and a healthy player. *)
Lemma rest_of_frame (dt : R) (force : bool) (g : Game.t)
      (orbs : list ExpOrb.t) :
  Game.orbLoop dt force (Game.expOrbs g) (Game.player g)
  = (orbs, Game.player g) ->
  List.filter (fun orb => negb (ExpOrb.collected orb)) orbs = orbs ->
  Game.chests g = [] ->
  Game.enemySpawnTimer g + dt < 10 ->
  30 <= Game.survivalTime g ->
  Game.eliteSpawnTimer g + dt < 30 ->
  Game.chestSpawnTimer g + dt < 45 ->
  Game.bossSpawned g = true ->
  0 < Player.hp (Game.player g) ->
  Game.updateScore
    (Game.checkDeath
       (Game.checkBoss
          (Game.updateSpawns dt
             (Game.updateParticles dt
                (Game.updateChests dt (Game.updateExpOrbs dt force g))))))
  = Game.set_score
      (Game.killCount g * 10 + Zfloor (Game.survivalTime g) * 2)%Z
      (Game.set_chestSpawnTimer (Game.chestSpawnTimer g + dt)
         (Game.set_eliteSpawnTimer (Game.eliteSpawnTimer g + dt)
            (Game.set_enemySpawnTimer (Game.enemySpawnTimer g + dt)
               (Game.set_particles (agedParticles dt (Game.particles g))
                  (Game.set_expOrbs orbs g))))).
Proof.
  intros Ho Hf Hc H1 H2 H3 H4 Hb Hhp.
  unfold Game.updateExpOrbs. rewrite Ho.
  set (g1 := Game.set_expOrbs _ (Game.set_player _ _)).
  assert (E1 : g1 = Game.set_expOrbs orbs g).
  { unfold g1. cbn [Game.expOrbs Game.set_player Game.set_expOrbs].
    rewrite Hf. destruct g. reflexivity. }
  clearbody g1. subst g1.
  unfold Game.updateChests.
  replace (Game.chests (Game.set_expOrbs orbs g)) with (@nil Chest.t)
    by (symmetry; exact Hc).
  cbn [Game.chestLoop].
  set (g1 := Game.set_chests _ (Game.set_chests _ _)).
  assert (E1 : g1 = Game.set_expOrbs orbs g).
  { unfold g1. destruct g. cbn in *. now subst. }
  clearbody g1. subst g1.
  unfold Game.updateParticles.
  set (g1 := Game.set_particles _ (Game.set_particles _ _)).
  assert (E1 : g1 = Game.set_particles (agedParticles dt (Game.particles g))
                      (Game.set_expOrbs orbs g))
    by reflexivity.
  clearbody g1. subst g1.
  rewrite updateSpawns_idle by assumption.
  rewrite checkBoss_spawned by exact Hb.
  rewrite checkDeath_alive by exact Hhp.
  reflexivity.
Qed.

(** A frame of 0.1 s in which the boss only approaches. *)
Lemma quiet_frame (n : nat) (a bx hp cd t : R) (k : Z)
      (ps : list Particle.t) (tms : list Timer) (sc : Z) (nx : nat) :
  a + 12 < 360 -> 140 <= bx -> 1 / 10 < cd -> 0 <= t -> t + 1 / 10 < 10 ->
  Game.update (1 / 10)
    (scene (hero n a) (bossAt bx hp cd false) [0%nat] t k [] ps tms playing
       true sc None nx)
  = scene (hero n (a + 120 * (1 / 10)))
      (bossAt (bx - 120 * (1 / 10)) hp (cd - 1 / 10) false) [0%nat]
      (t + 1 / 10) k [] (agedParticles (1 / 10) ps) tms playing true
      (k * 10 + Zfloor (130 + t + 1 / 10) * 2)%Z None nx.
Proof.
  intros Ha Hb Hcd Ht0 Ht. unfold Game.update.
  set (g0 := Game.set_survivalTime _ _).
  rewrite (updatePlayer_hero (1 / 10) n a g0) by (reflexivity || lra).
  set (g1 := Game.set_player _ g0).
  unfold Game.updateEnemies.
  replace (Game.enemies g1) with [0%nat] by reflexivity.
  cbn [fold_left].
  rewrite (enemyStep_far (1 / 10) bx hp cd n (a + 120 * (1 / 10)) g1)
    by (reflexivity || lra).
  set (g2 := Game.set_store _ g1).
  replace (List.filter (Game.alive g2) (Game.enemies g2)) with [0%nat]
    by reflexivity.
  rewrite (rest_of_frame _ _ _ []); try reflexivity; try (cbn; lra).
  unfold scene. subst g2 g1 g0. game_norm. f_equal. lra.
Qed.

(** A frame of 0.1 s in which the boss approaches and triggers its
    attack. *)
Lemma attack_frame (n : nat) (a bx hp cd t : R) (k : Z)
      (ps : list Particle.t) (tms : list Timer) (sc : Z) (nx : nat) :
  a + 12 < 360 -> 140 <= bx -> cd <= 1 / 10 -> 0 <= t -> t + 1 / 10 < 10 ->
  Game.update (1 / 10)
    (scene (hero n a) (bossAt bx hp cd false) [0%nat] t k [] ps tms playing
       true sc None nx)
  = scene (hero n (a + 120 * (1 / 10)))
      (bossAt (bx - 120 * (1 / 10)) hp 5 false) [0%nat]
      (t + 1 / 10) k []
      (agedParticles (1 / 10) (ps ++ warningRing (bx - 120 * (1 / 10)) 0))
      (tms ++ [BossAttackHit 0]) playing true
      (k * 10 + Zfloor (130 + t + 1 / 10) * 2)%Z None nx.
Proof.
  intros Ha Hb Hcd Ht0 Ht. unfold Game.update.
  set (g0 := Game.set_survivalTime _ _).
  rewrite (updatePlayer_hero (1 / 10) n a g0) by (reflexivity || lra).
  set (g1 := Game.set_player _ g0).
  unfold Game.updateEnemies.
  replace (Game.enemies g1) with [0%nat] by reflexivity.
  cbn [fold_left].
  rewrite (enemyStep_attack (1 / 10) bx hp cd n (a + 120 * (1 / 10)) g1)
    by (reflexivity || lra).
  set (g2 := Game.set_timers _ _).
  replace (List.filter (Game.alive g2) (Game.enemies g2)) with [0%nat]
    by reflexivity.
  rewrite (rest_of_frame _ _ _ []); try reflexivity; try (cbn; lra).
  unfold scene. subst g2 g1 g0. game_norm. f_equal. lra.
Qed.

(** ** The frame of the double kill *)

(** The two weapon positions of the hero at orbit angle 330. *)
Lemma hero_weapons_330_two (e : Enemy.t) :
  Enemy.x e = 70 -> Enemy.y e = 0 -> Enemy.radius e = 40 ->
  List.map
    (fun wp => Utils.circleCollision (Player.wx wp) (Player.wy wp) 8
                 (Enemy.x e) (Enemy.y e) (Enemy.radius e))
    (Player.getWeaponPositions (hero 2 330))
  = [true; false].
Proof.
  intros -> -> ->. unfold Player.getWeaponPositions.
  cbn [hero Player.new Player.set_currentAngle Player.set_weaponCount
       Player.weaponCount Player.currentAngle Player.x Player.y
       Player.weaponRadius seq List.map Player.wx Player.wy].
  pose proof sqrt3_gt as H3. pose proof PI_RGT_0 as Hpi.
  rewrite weapon_hit_70.
  2:{ replace ((330 + INR 0 * (360 / INR 2)) * PI / 180)
        with (- (PI / 6) + 2 * INR 1 * PI) by (simpl; field).
      rewrite cos_period, cos_neg, cos_PI6. lra. }
  rewrite weapon_miss_70; [reflexivity|].
  replace ((330 + INR 1 * (360 / INR 2)) * PI / 180)
    with (5 * (PI / 6) + 2 * INR 1 * PI) by (simpl; field).
  rewrite cos_period. apply cos_le_0; lra.
Qed.

Lemma weaponStep_hit (id : nat) (g : Game.t) (wp : Player.WeaponPos)
      (e : Enemy.t) :
  Game.store g !! id = Some e ->
  Utils.circleCollision (Player.wx wp) (Player.wy wp) 8
    (Enemy.x e) (Enemy.y e) (Enemy.radius e) = true ->
  Game.weaponStep id g wp
  = let e' := Enemy.takeDamage (Player.weaponDamage (Game.player g)) e in
    let g' := Game.putEnemy id e' g in
    if Enemy.isDead e' then Game.killEnemy e' g' else g'.
Proof. intros Hl Hc. unfold Game.weaponStep. now rewrite Hl, Hc. Qed.

(** The killing blow and every later blow leave the boss dead with 0 hp. *)
Lemma takeDamage_kills (x hp cd d : R) (dead : bool) :
  hp <= d ->
  Enemy.takeDamage d (bossAt x hp cd dead) = bossAt x 0 cd true.
Proof.
  intros H. unfold Enemy.takeDamage, bossAt. enemy_norm.
  rewrite Rleb_true by lra. reflexivity.
Qed.

(** The six weapon positions of the hero at orbit angle 330. *)
Lemma hero_weapons_330 (e : Enemy.t) :
  Enemy.x e = 70 -> Enemy.y e = 0 -> Enemy.radius e = 40 ->
  List.map
    (fun wp => Utils.circleCollision (Player.wx wp) (Player.wy wp) 8
                 (Enemy.x e) (Enemy.y e) (Enemy.radius e))
    (Player.getWeaponPositions (hero 6 330))
  = [true; true; false; false; false; false].
Proof.
  intros -> -> ->. unfold Player.getWeaponPositions.
  cbn [hero Player.new Player.set_currentAngle Player.set_weaponCount
       Player.weaponCount Player.currentAngle Player.x Player.y
       Player.weaponRadius seq List.map Player.wx Player.wy].
  pose proof sqrt3_gt as H3.
  rewrite weapon_hit_70 by (rewrite cos_330; lra).
  rewrite weapon_hit_70 by (rewrite cos_390; lra).
  rewrite !weapon_miss_70 by (apply cos_back; lia).
  reflexivity.
Qed.

Lemma killEnemy_store (e : Enemy.t) (g : Game.t) :
  Game.store (Game.killEnemy e g) = Game.store g.
Proof. unfold Game.killEnemy. destruct (Enemy.type e); reflexivity. Qed.

Lemma putEnemy_store (id : nat) (e : Enemy.t) (g : Game.t) :
  Game.store (Game.putEnemy id e g) = <[id := e]> (Game.store g).
Proof. reflexivity. Qed.

Lemma putEnemy_player (id : nat) (e : Enemy.t) (g : Game.t) :
  Game.player (Game.putEnemy id e g) = Game.player g.
Proof. reflexivity. Qed.

Lemma set_store_same (s : list Enemy.t) (g : Game.t) :
  Game.store g = s -> Game.set_store s g = g.
Proof. intros <-. destruct g; reflexivity. Qed.

Lemma killEnemy_player (e : Enemy.t) (g : Game.t) :
  Game.player (Game.killEnemy e g) = Game.player g.
Proof. unfold Game.killEnemy. destruct (Enemy.type e); reflexivity. Qed.

(** Two of the six weapons overlap a boss that has 10 hp left: the first
    blow kills it and resolves the kill, the second resolves the kill
    again. *)
Lemma weapons_two_blows (cd : R) (g : Game.t) :
  Game.store g = [bossAt 70 10 cd false] ->
  Game.player g = hero 6 330 ->
  let e := bossAt 70 0 cd true in
  fold_left (Game.weaponStep 0) (Player.getWeaponPositions (hero 6 330)) g
  = Game.killEnemy e (Game.killEnemy e (Game.set_store [e] g)).
Proof.
  intros Hs Hp e.
  set (e1 := bossAt 70 10 cd false) in *.
  pose proof (hero_weapons_330 e1 eq_refl eq_refl eq_refl) as W1.
  pose proof (hero_weapons_330 e eq_refl eq_refl eq_refl) as W.
  destruct (Player.getWeaponPositions (hero 6 330))
    as [|w0 [|w1 [|w2 [|w3 [|w4 [|w5 [|]]]]]]]; try discriminate.
  cbn [List.map] in W1, W.
  injection W1 as A0 _ _ _ _ _. injection W as _ B1 B2 B3 B4 B5.
  cbn [fold_left].
  (* first blow *)
  assert (Hl1 : Game.store g !! 0%nat = Some e1) by now rewrite Hs.
  rewrite (weaponStep_hit 0 g w0 e1 Hl1 A0). cbn zeta.
  rewrite Hp. replace (Player.weaponDamage (hero 6 330)) with 10
    by reflexivity.
  unfold e1 at 1 2 3. rewrite takeDamage_kills by lra. fold e.
  replace (Enemy.isDead e) with true by reflexivity.
  set (g2 := Game.killEnemy e (Game.putEnemy 0 e g)).
  assert (Hl2 : Game.store g2 !! 0%nat = Some e).
  { unfold g2. now rewrite killEnemy_store, putEnemy_store, Hs. }
  (* second blow *)
  rewrite (weaponStep_hit 0 g2 w1 e Hl2 B1). cbn zeta.
  replace (Player.weaponDamage (Game.player g2)) with 10.
  2:{ unfold g2. now rewrite killEnemy_player, putEnemy_player, Hp. }
  unfold e at 1 2 3. rewrite takeDamage_kills by lra. fold e.
  replace (Enemy.isDead e) with true by reflexivity.
  set (g3 := Game.killEnemy e (Game.putEnemy 0 e g2)).
  assert (Hl3 : Game.store g3 !! 0%nat = Some e).
  { unfold g3, g2.
    now rewrite killEnemy_store, putEnemy_store, killEnemy_store,
      putEnemy_store, Hs. }
  (* the other four weapons miss *)
  rewrite (weaponStep_miss 0 g3 w2 e Hl3 B2).
  rewrite (weaponStep_miss 0 g3 w3 e Hl3 B3).
  rewrite (weaponStep_miss 0 g3 w4 e Hl3 B4).
  rewrite (weaponStep_miss 0 g3 w5 e Hl3 B5).
  (* the writes through the reference *)
  unfold g3, g2. unfold Game.putEnemy at 1.
  rewrite killEnemy_store, putEnemy_store, Hs.
  unfold Game.putEnemy. rewrite Hs. cbn [insert list_insert].
  rewrite set_store_same; [reflexivity|].
  now rewrite killEnemy_store.
Qed.

(** The enemy block of that frame. *)
Lemma enemyStep_two_blows (cd : R) (g : Game.t) :
  Game.store g = [bossAt 82 10 cd false] ->
  Game.player g = hero 6 330 ->
  1 / 10 < cd ->
  let e := bossAt 70 0 (cd - 1 / 10) true in
  Game.enemyStep (1 / 10) g 0
  = Game.killEnemy e (Game.killEnemy e (Game.set_store [e] g)).
Proof.
  intros Hs Hp Hcd e. unfold Game.enemyStep.
  rewrite Hs, Hp. cbn [lookup list_lookup].
  replace (Player.x (hero 6 330)) with 0 by reflexivity.
  replace (Player.y (hero 6 330)) with 0 by reflexivity.
  rewrite update_bossAt by lra.
  replace (82 - 120 * (1 / 10)) with 70 by lra.
  set (e1 := bossAt 70 10 _ false).
  set (g1 := Game.putEnemy 0 e1 g).
  assert (Hg1 : g1 = Game.set_store [e1] g).
  { unfold g1, Game.putEnemy. now rewrite Hs. }
  clearbody g1. subst g1.
  cbn [Game.player Game.set_store]. rewrite Hp.
  replace (Utils.circleCollision (Enemy.x e1) (Enemy.y e1) (Enemy.radius e1)
             (Player.x (hero 6 330)) (Player.y (hero 6 330))
             (Player.radius (hero 6 330))) with false.
  2:{ unfold Utils.circleCollision, Utils.distance. cbn.
      symmetry. apply Rltb_false, sqrt_ge_sq; nra. }
  cbn [Game.player Game.set_store]. rewrite Hp.
  rewrite (weapons_two_blows (cd - 1 / 10)) by (reflexivity || exact Hp).
  cbn zeta. fold e.
  rewrite !killEnemy_store. cbn [Game.store Game.set_store lookup list_lookup].
  unfold Enemy.canAttack.
  replace (Enemy.attackCooldown e) with (cd - 1 / 10) by reflexivity.
  rewrite Rleb_false by lra. rewrite andb_false_r.
  reflexivity.
Qed.

(** One of the two weapons overlaps the boss: a single blow, a single
    kill resolution. *)
Lemma weapons_one_blow (cd : R) (g : Game.t) :
  Game.store g = [bossAt 70 10 cd false] ->
  Game.player g = hero 2 330 ->
  let e := bossAt 70 0 cd true in
  fold_left (Game.weaponStep 0) (Player.getWeaponPositions (hero 2 330)) g
  = Game.killEnemy e (Game.set_store [e] g).
Proof.
  intros Hs Hp e.
  set (e1 := bossAt 70 10 cd false) in *.
  pose proof (hero_weapons_330_two e1 eq_refl eq_refl eq_refl) as W1.
  pose proof (hero_weapons_330_two e eq_refl eq_refl eq_refl) as W.
  destruct (Player.getWeaponPositions (hero 2 330))
    as [|w0 [|w1 [|]]]; try discriminate.
  cbn [List.map] in W1, W.
  injection W1 as A0 _. injection W as _ B1.
  cbn [fold_left].
  assert (Hl1 : Game.store g !! 0%nat = Some e1) by now rewrite Hs.
  rewrite (weaponStep_hit 0 g w0 e1 Hl1 A0). cbn zeta.
  rewrite Hp. replace (Player.weaponDamage (hero 2 330)) with 10
    by reflexivity.
  unfold e1 at 1 2 3. rewrite takeDamage_kills by lra. fold e.
  replace (Enemy.isDead e) with true by reflexivity.
  set (g2 := Game.killEnemy e (Game.putEnemy 0 e g)).
  assert (Hl2 : Game.store g2 !! 0%nat = Some e).
  { unfold g2. now rewrite killEnemy_store, putEnemy_store, Hs. }
  rewrite (weaponStep_miss 0 g2 w1 e Hl2 B1).
  unfold g2, Game.putEnemy. now rewrite Hs.
Qed.

Lemma enemyStep_one_blow (cd : R) (g : Game.t) :
  Game.store g = [bossAt 82 10 cd false] ->
  Game.player g = hero 2 330 ->
  1 / 10 < cd ->
  let e := bossAt 70 0 (cd - 1 / 10) true in
  Game.enemyStep (1 / 10) g 0 = Game.killEnemy e (Game.set_store [e] g).
Proof.
  intros Hs Hp Hcd e. unfold Game.enemyStep.
  rewrite Hs, Hp. cbn [lookup list_lookup].
  replace (Player.x (hero 2 330)) with 0 by reflexivity.
  replace (Player.y (hero 2 330)) with 0 by reflexivity.
  rewrite update_bossAt by lra.
  replace (82 - 120 * (1 / 10)) with 70 by lra.
  set (e1 := bossAt 70 10 _ false).
  set (g1 := Game.putEnemy 0 e1 g).
  assert (Hg1 : g1 = Game.set_store [e1] g).
  { unfold g1, Game.putEnemy. now rewrite Hs. }
  clearbody g1. subst g1.
  cbn [Game.player Game.set_store]. rewrite Hp.
  replace (Utils.circleCollision (Enemy.x e1) (Enemy.y e1) (Enemy.radius e1)
             (Player.x (hero 2 330)) (Player.y (hero 2 330))
             (Player.radius (hero 2 330))) with false.
  2:{ unfold Utils.circleCollision, Utils.distance. cbn.
      symmetry. apply Rltb_false, sqrt_ge_sq; nra. }
  cbn [Game.player Game.set_store]. rewrite Hp.
  rewrite (weapons_one_blow (cd - 1 / 10)) by (reflexivity || exact Hp).
  cbn zeta. fold e.
  rewrite !killEnemy_store. cbn [Game.store Game.set_store lookup list_lookup].
  unfold Enemy.canAttack.
  replace (Enemy.attackCooldown e) with (cd - 1 / 10) by reflexivity.
  rewrite Rleb_false by lra. rewrite andb_false_r.
  reflexivity.
Qed.

(** ** Orbs and particles of the kill scene *)

Lemma orb_drifts (n : nat) (a ox oy v : R) :
  ox = 70 -> oy = 0 ->
  ExpOrb.update (1 / 10) (hero n a) false (ExpOrb.new ox oy v)
  = (Some 0, ExpOrb.set_pos 65 0 (ExpOrb.new ox oy v)).
Proof.
  intros -> ->. unfold ExpOrb.update.
  cbn [ExpOrb.new ExpOrb.collected ExpOrb.x ExpOrb.y ExpOrb.attractDistance
       ExpOrb.attractSpeed ExpOrb.fastAttractDistance ExpOrb.fastAttractSpeed
       ExpOrb.radius ExpOrb.value andb].
  replace (Player.x (hero n a)) with 0 by reflexivity.
  replace (Player.y (hero n a)) with 0 by reflexivity.
  replace (Player.autoCollectBuff (hero n a)) with 0 by reflexivity.
  replace (Player.radius (hero n a)) with 20 by reflexivity.
  replace (sqrt ((0 - 70) * (0 - 70) + (0 - 0) * (0 - 0))) with 70
    by (symmetry; apply sqrt_lem_1; lra).
  rewrite (Rltb_false 0 0), (Rltb_true 70 100), (Rltb_true 1 70) by lra.
  cbn [orb andb].
  replace (70 + (0 - 70) / 70 * 50 * (1 / 10)) with 65 by field.
  replace (0 + (0 - 0) / 70 * 50 * (1 / 10)) with 0 by field.
  unfold Utils.circleCollision, Utils.distance.
  cbn [ExpOrb.set_pos ExpOrb.x ExpOrb.y ExpOrb.radius ExpOrb.value
       ExpOrb.collected ExpOrb.attractDistance ExpOrb.attractSpeed
       ExpOrb.fastAttractDistance ExpOrb.fastAttractSpeed].
  rewrite Rltb_false; [reflexivity|].
  change (ExpOrb.radius (ExpOrb.new 70 0 v)) with 5.
  apply sqrt_ge_sq; nra.
Qed.

Lemma orbLoop_drift (n : nat) (a : R) (orbs : list ExpOrb.t) :
  Forall (fun o => exists ox oy v,
              o = ExpOrb.new ox oy v /\ ox = 70 /\ oy = 0) orbs ->
  Game.orbLoop (1 / 10) false orbs (hero n a)
  = (List.map (ExpOrb.set_pos 65 0) orbs, hero n a).
Proof.
  induction 1 as [|o orbs (ox & oy & v & -> & Hx & Hy) _ IH];
    cbn [Game.orbLoop List.map]; trivial.
  rewrite (orb_drifts n a ox oy v Hx Hy), (Rltb_false 0 0) by lra.
  now rewrite IH.
Qed.

Lemma filter_uncollected (orbs : list ExpOrb.t) :
  Forall (fun o => ExpOrb.collected o = false) orbs ->
  List.filter (fun orb => negb (ExpOrb.collected orb)) orbs = orbs.
Proof.
  induction 1 as [|o orbs Ho _ IH]; cbn [List.filter]; trivial.
  now rewrite Ho, IH.
Qed.

Lemma agedParticles_all (dt : R) (ps : list Particle.t) :
  Forall (fun p => dt < Particle.life p) ps ->
  agedParticles dt ps = List.map (Particle.update dt) ps.
Proof.
  unfold agedParticles.
  induction 1 as [|p ps Hp _ IH]; cbn [List.map List.filter]; trivial.
  unfold Particle.isDead at 1. cbn [Particle.update Particle.life].
  rewrite Rleb_false by lra. cbn [negb]. now rewrite IH.
Qed.

Ltac scene_norm :=
  cbv [Game.killEnemy Nat.iter nat_rect Game.dropOrb Game.burstParticle
       Game.randomFloat Game.random Utils.randomFloat Game.gameOver halfOracle
       ExpOrb.new Particle.new bossAt hero
       Enemy.new Enemy.configs Enemy.set_x Enemy.set_y Enemy.set_type
       Enemy.set_hp Enemy.set_isDead Enemy.set_slowEffect
       Enemy.set_attackCooldown Enemy.set_attackInterval
       Enemy.x Enemy.y Enemy.type Enemy.hp Enemy.maxHp Enemy.speed
       Enemy.damage Enemy.exp Enemy.radius Enemy.color Enemy.isDead
       Enemy.slowEffect Enemy.attackCooldown Enemy.attackInterval
       Enemy.c_hp Enemy.c_speed Enemy.c_damage Enemy.c_exp Enemy.c_radius
       Enemy.c_color
       Game.set_keys Game.set_mousePressed Game.set_state Game.set_isPaused
       Game.set_player Game.set_enemies Game.set_expOrbs Game.set_chests
       Game.set_particles Game.set_score Game.set_killCount
       Game.set_survivalTime Game.set_enemySpawnTimer
       Game.set_eliteSpawnTimer Game.set_chestSpawnTimer
       Game.set_bossSpawned Game.set_bossAlive Game.set_store
       Game.set_timers Game.set_finalScore Game.set_rndi
       Game.centerX Game.centerY Game.arenaRadius Game.keys
       Game.mousePressed Game.state Game.isPaused Game.player Game.enemies
       Game.expOrbs Game.chests Game.particles Game.score Game.killCount
       Game.survivalTime Game.enemySpawnTimer Game.eliteSpawnTimer
       Game.chestSpawnTimer Game.bossSpawned Game.bossAlive Game.store
       Game.timers Game.finalScore Game.rnd Game.rndi scene app].

Lemma kill_frame :
  let g' := Game.update (1 / 10) killScene in
  Game.killCount g' = 2%Z
  /\ length (Game.expOrbs g') = 6%nat
  /\ Forall (fun o => ExpOrb.value o = 100 / 3) (Game.expOrbs g')
  /\ length (Game.particles g') = 20%nat
  /\ Game.enemies g' = []
  /\ Game.store g' = [bossAt 70 0 (3 - 1 / 10) true]
  /\ Game.state g' = gameover
  /\ Game.bossAlive g' = false
  /\ Game.survivalTime g' = 130 + 0 + 1 / 10
  /\ Game.score g' = 280%Z
  /\ Game.finalScore g' = Some 360%Z.
Proof.
  intros g'. unfold g', killScene, Game.update.
  set (g0 := Game.set_survivalTime _ _).
  replace (held (Game.keys g0) " " || held (Game.keys g0) "space")
    with false
    by (replace (Game.keys g0) with (∅ : gset string) by reflexivity;
        now rewrite !held_empty).
  rewrite (updatePlayer_hero (1 / 10) 6 318 g0) by (reflexivity || lra).
  replace (318 + 120 * (1 / 10)) with 330 by lra.
  set (g1 := Game.set_player _ g0).
  unfold Game.updateEnemies.
  replace (Game.enemies g1) with [0%nat] by reflexivity.
  cbn [fold_left].
  rewrite (enemyStep_two_blows 3 g1) by (reflexivity || lra).
  cbn zeta.
  set (e := bossAt 70 0 (3 - 1 / 10) true).
  set (g2 := Game.killEnemy e _).
  replace (List.filter (Game.alive g2) (Game.enemies g2)) with (@nil nat)
    by reflexivity.
  set (g3 := Game.set_enemies [] g2).
  assert (Ho : Game.orbLoop (1 / 10) false (Game.expOrbs g3) (Game.player g3)
               = (List.map (ExpOrb.set_pos 65 0) (Game.expOrbs g3),
                  Game.player g3)).
  { replace (Game.player g3) with (hero 6 330) by reflexivity.
    apply orbLoop_drift. unfold g3, g2, g1, g0, e. scene_norm.
    repeat first
      [ apply List.Forall_nil
      | apply List.Forall_cons;
        [do 3 eexists; split; [reflexivity | split; lra]|] ]. }
  rewrite (rest_of_frame _ _ g3 _ Ho).
  - set (orbs := List.map _ (Game.expOrbs g3)).
    replace (agedParticles (1 / 10) (Game.particles g3))
      with (List.map (Particle.update (1 / 10)) (Game.particles g3)).
    2:{ symmetry. apply agedParticles_all. unfold g3, g2, g1, g0, e.
        scene_norm.
        repeat first [apply List.Forall_nil
                     | apply List.Forall_cons; [cbn [Particle.life]; lra|]]. }
    split; [reflexivity|].
    split; [reflexivity|].
    split.
    { unfold orbs, g3, g2, g1, g0, e. scene_norm.
      repeat first [apply List.Forall_nil
                   | apply List.Forall_cons; [reflexivity|]]. }
    split; [reflexivity|].
    split; [reflexivity|].
    split; [reflexivity|].
    split; [reflexivity|].
    split; [reflexivity|].
    split; [reflexivity|].
    split; [|reflexivity].
    cbn [Game.score Game.set_score].
    replace (Game.killCount g3) with 2%Z by reflexivity.
    replace (Game.survivalTime g3) with (130 + 0 + 1 / 10) by reflexivity.
    rewrite (Zfloor_eq 130) by lra. reflexivity.
  - apply filter_uncollected. unfold g3, g2, g1, g0, e. scene_norm.
    repeat first [apply List.Forall_nil
                 | apply List.Forall_cons; [reflexivity|]].
  - reflexivity.
  - cbn. lra.
  - cbn. lra.
  - cbn. lra.
  - cbn. lra.
  - reflexivity.
  - cbn. lra.
Qed.

(** ** The frame of the single kill *)

Lemma duel_frame :
  let g' := Game.update (1 / 10) duelScene in
  Game.killCount g' = 1%Z
  /\ length (Game.expOrbs g') = 3%nat
  /\ length (Game.particles g') = 10%nat
  /\ Game.state g' = gameover
  /\ Game.bossAlive g' = false
  /\ Game.survivalTime g' = 130 + 0 + 1 / 10
  /\ Game.score g' = 270%Z
  /\ Game.finalScore g' = Some 310%Z.
Proof.
  intros g'. unfold g', duelScene, Game.update.
  set (g0 := Game.set_survivalTime _ _).
  replace (held (Game.keys g0) " " || held (Game.keys g0) "space")
    with false
    by (replace (Game.keys g0) with (∅ : gset string) by reflexivity;
        now rewrite !held_empty).
  rewrite (updatePlayer_hero (1 / 10) 2 318 g0) by (reflexivity || lra).
  replace (318 + 120 * (1 / 10)) with 330 by lra.
  set (g1 := Game.set_player _ g0).
  unfold Game.updateEnemies.
  replace (Game.enemies g1) with [0%nat] by reflexivity.
  cbn [fold_left].
  rewrite (enemyStep_one_blow 3 g1) by (reflexivity || lra).
  cbn zeta.
  set (e := bossAt 70 0 (3 - 1 / 10) true).
  set (g2 := Game.killEnemy e _).
  replace (List.filter (Game.alive g2) (Game.enemies g2)) with (@nil nat)
    by reflexivity.
  set (g3 := Game.set_enemies [] g2).
  assert (Ho : Game.orbLoop (1 / 10) false (Game.expOrbs g3) (Game.player g3)
               = (List.map (ExpOrb.set_pos 65 0) (Game.expOrbs g3),
                  Game.player g3)).
  { replace (Game.player g3) with (hero 2 330) by reflexivity.
    apply orbLoop_drift. unfold g3, g2, g1, g0, e. scene_norm.
    repeat first
      [ apply List.Forall_nil
      | apply List.Forall_cons;
        [do 3 eexists; split; [reflexivity | split; lra]|] ]. }
  rewrite (rest_of_frame _ _ g3 _ Ho).
  - replace (agedParticles (1 / 10) (Game.particles g3))
      with (List.map (Particle.update (1 / 10)) (Game.particles g3)).
    2:{ symmetry. apply agedParticles_all. unfold g3, g2, g1, g0, e.
        scene_norm.
        repeat first [apply List.Forall_nil
                     | apply List.Forall_cons; [cbn [Particle.life]; lra|]]. }
    split; [reflexivity|].
    split; [reflexivity|].
    split; [reflexivity|].
    split; [reflexivity|].
    split; [reflexivity|].
    split; [reflexivity|].
    split; [|reflexivity].
    cbn [Game.score Game.set_score].
    replace (Game.killCount g3) with 1%Z by reflexivity.
    replace (Game.survivalTime g3) with (130 + 0 + 1 / 10) by reflexivity.
    rewrite (Zfloor_eq 130) by lra. reflexivity.
  - apply filter_uncollected. unfold g3, g2, g1, g0, e. scene_norm.
    repeat first [apply List.Forall_nil
                 | apply List.Forall_cons; [reflexivity|]].
  - reflexivity.
  - cbn. lra.
  - cbn. lra.
  - cbn. lra.
  - cbn. lra.
  - reflexivity.
  - cbn. lra.
Qed.

(** ** The delayed boss attack *)

Lemma frame_playing (el : R) (g : Game.t) :
  Game.state g = playing -> 1 / 10 <= el ->
  step g (Frame el) = Game.update (1 / 10) g.
Proof.
  intros Hs Hel. cbn [step]. unfold Game.gameLoop.
  rewrite Hs, Rmin_right by exact Hel. reflexivity.
Qed.

Lemma frame_scene (el : R) (p : Player.t) (e : Enemy.t) (ids : list nat)
      (t : R) (k : Z) (orbs : list ExpOrb.t) (ps : list Particle.t)
      (tms : list Timer) (alive : bool) (sc : Z) (final : option Z)
      (nx : nat) :
  1 / 10 <= el ->
  step (scene p e ids t k orbs ps tms playing alive sc final nx) (Frame el)
  = Game.update (1 / 10)
      (scene p e ids t k orbs ps tms playing alive sc final nx).
Proof. intros Hel. now apply frame_playing. Qed.

(** C8 fails on the code.  The callback of the delayed attack reads the
    position of the live enemy object when it fires, not the position at
    which the attack was triggered.  In the scene below the boss triggers
    its attack at (240, 0), where the warning ring of radius 200 is drawn,
    while the player stands at (0, 0), 240 units away and so outside the
    ring.  Four frames of 0.1 s later the boss has walked to (192, 0); the
    timer then fires and the player, who never moved, loses 15 hp. *)
Theorem boss_attack_hits_at_live_position :
  let g0 := scene (hero 2 0) (bossAt 252 300 0 false) [0%nat] 0 0 [] [] []
              playing true 260 None 0 in
  let g1 := step g0 (Frame (1 / 10)) in
  let g5 := run g1 [Frame (1 / 10); Frame (1 / 10); Frame (1 / 10);
                    Frame (1 / 10)] in
  let g6 := step g5 (Fire 0) in
  (* the attack is triggered in the first frame, with the boss at (240, 0) *)
  Game.timers g0 = [] /\ Game.timers g1 = [BossAttackHit 0]
  /\ (Enemy.x <$> Game.store g1 !! 0%nat) = Some 240
  /\ (Enemy.y <$> Game.store g1 !! 0%nat) = Some 0
  (* the player stays at (0, 0), 240 units from that position *)
  /\ Player.x (Game.player g5) = 0 /\ Player.y (Game.player g5) = 0
  /\ Utils.distance (Player.x (Game.player g5)) (Player.y (Game.player g5))
       240 0 = 240
  (* the boss has moved on to (192, 0) when the timer fires *)
  /\ (Enemy.x <$> Game.store g5 !! 0%nat) = Some 192
  /\ Game.timers g5 = [BossAttackHit 0]
  (* and the player is hit *)
  /\ Player.hp (Game.player g5) = 100
  /\ Player.hp (Game.player g6) = 85.
Proof.
  intros g0 g1 g5 g6.
  assert (E1 : g1 = scene (hero 2 (0 + 120 * (1 / 10)))
                      (bossAt (252 - 120 * (1 / 10)) 300 5 false) [0%nat]
                      (0 + 1 / 10) 0 []
                      (agedParticles (1 / 10)
                         ([] ++ warningRing (252 - 120 * (1 / 10)) 0))
                      ([] ++ [BossAttackHit 0]) playing true
                      (0 * 10 + Zfloor (130 + 0 + 1 / 10) * 2)%Z None 0).
  { unfold g1, g0. rewrite frame_scene by lra. apply attack_frame; lra. }
  assert (E5 : exists a bx cd t ps sc,
             g5 = scene (hero 2 a) (bossAt bx 300 cd false) [0%nat] t 0 [] ps
                    [BossAttackHit 0] playing true sc None 0
             /\ bx = 192).
  { unfold g5, run. rewrite E1. cbn [fold_left app].
    do 4 (rewrite frame_scene by lra; rewrite quiet_frame by lra).
    do 6 eexists. split; [reflexivity | lra]. }
  destruct E5 as (a & bx & cd & t & ps & sc & E5 & Hbx).
  assert (Hx1 : (Enemy.x <$> Game.store g1 !! 0%nat) = Some 240).
  { rewrite E1. cbn. f_equal. lra. }
  repeat split; trivial.
  - rewrite E1. reflexivity.
  - rewrite E1. reflexivity.
  - rewrite E5. reflexivity.
  - rewrite E5. reflexivity.
  - rewrite E5. unfold Utils.distance. cbn. apply sqrt_lem_1; lra.
  - rewrite E5. cbn. now rewrite Hbx.
  - rewrite E5. reflexivity.
  - rewrite E5. reflexivity.
  - unfold g6. rewrite E5. cbn [step]. unfold Game.fire.
    cbn [scene Game.timers lookup list_lookup Game.runTimer Game.set_timers
         Game.store Game.player].
    replace (Utils.distance (Player.x (hero 2 a)) (Player.y (hero 2 a))
               (Enemy.x (bossAt bx 300 cd false))
               (Enemy.y (bossAt bx 300 cd false))) with 192.
    2:{ unfold Utils.distance. cbn. symmetry. apply sqrt_lem_1; subst bx; lra. }
    rewrite Rltb_true by lra.
    unfold Player.takeDamage. cbn. rewrite (Rltb_false 0 0) by lra. cbn.
    rewrite Rmax_right by lra.
    rewrite Rltb_false by lra. cbn. lra.
Qed.

(** ** The kill resolution *)

(** C2 fails on the code.  Nothing in the weapon loop skips an enemy that
    is already dead: in [killScene] the boss, the only enemy, has 10 hp
    left and is overlapped by two of the six weapons; the first blow kills
    it and the second resolves the kill again, so that this one death
    counts as 2 kills and leaves 6 orbs (of 100/3 each) and 20 particles. *)
Theorem kill_resolved_twice :
  let g := killScene in
  let g' := Game.update (1 / 10) g in
  (* one enemy, alive before the step and dead after it *)
  Game.enemies g = [0%nat]
  /\ Game.store g = [bossAt 82 10 3 false]
  /\ Game.store g' = [bossAt 70 0 (3 - 1 / 10) true]
  /\ Game.enemies g' = []
  (* the kill count *)
  /\ Game.killCount g = 0%Z
  /\ Game.killCount g' = 2%Z
  (* the orbs *)
  /\ Game.expOrbs g = []
  /\ length (Game.expOrbs g') = 6%nat
  /\ Forall (fun o => ExpOrb.value o = 100 / 3) (Game.expOrbs g')
  (* the particles *)
  /\ Game.particles g = []
  /\ length (Game.particles g') = 20%nat.
Proof.
  intros g g'.
  destruct kill_frame as (K1 & K2 & K3 & K4 & K5 & K6 & _).
  repeat split; trivial.
Qed.

(** ** The score *)

Lemma update_score (dt : R) (g : Game.t) :
  Game.score (Game.update dt g)
  = (Game.killCount (Game.update dt g) * 10
     + Zfloor (Game.survivalTime (Game.update dt g)) * 2)%Z.
Proof. reflexivity. Qed.

(** C3 fails on the code.  The last statement of [update] recomputes the
    score as [killCount * 10 + floor(survivalTime) * 2], which discards the
    50 points that [killEnemy] added for the boss earlier in the same step:
    after every update step the score is that sum and nothing else.  In
    [duelScene] the boss is defeated in the step, by a single blow, and the
    score ends at 1 * 10 + 130 * 2 = 270, without the bonus.  Only the
    game-over panel, written by [killEnemy] before the recomputation from
    the score of the previous frame, shows 260 + 50 = 310. *)
Theorem victory_bonus_overwritten :
  (forall (dt : R) (g : Game.t),
      Game.score (Game.update dt g)
      = (Game.killCount (Game.update dt g) * 10
         + Zfloor (Game.survivalTime (Game.update dt g)) * 2)%Z)
  /\ (let g := duelScene in
      let g' := Game.update (1 / 10) g in
      Game.bossAlive g = true
      /\ Game.score g = 260%Z
      /\ Game.bossAlive g' = false
      /\ Game.state g' = gameover
      /\ Game.killCount g' = 1%Z
      /\ Zfloor (Game.survivalTime g') = 130%Z
      /\ Game.score g' = 270%Z
      /\ Game.finalScore g' = Some 310%Z).
Proof.
  split; [exact update_score|].
  intros g g'. subst g' g.
  destruct duel_frame as (K1 & _ & _ & K4 & K5 & K6 & K7 & K8).
  repeat split; trivial.
  rewrite K6. apply Zfloor_eq. lra.
Qed.
